(** * newsletter.py: fetch, summarise, compose and send a news briefing

    A shallow embedding of [src/newsletter.py].  The script talks to three
    outside services (a news search API over HTTP, a chat-completion API and
    an SMTP relay) and prints progress lines.  Every such effect is recorded
    in a chronological trace, the answers of the outside world are read from
    a [world] record, and Python exceptions are an explicit outcome, so that
    each [try]/[except] of the script is a term of the model. *)

From Stdlib Require Import Ascii ZArith Lia.
From stdpp Require Import gmap strings list pretty.

(** ** Python values, as far as the script observes them *)

(** The double quote and the line feed, which the templates of [main] use. *)
Definition dquote : string := String (ascii_of_nat 34) EmptyString.
Definition newline : string := String (ascii_of_nat 10) EmptyString.

(** A value found in a decoded JSON object, or handed to a function of the
    script.  The script does two things with such a value: it tests its truth
    value ([not x], [x or y]) and it formats it in an f-string.  A value that
    is neither [None] nor a [str] (a number, a boolean, a container) is kept
    as exactly these two observations. *)
Inductive pyval : Type :=
| PNone
| PStr (s : string)
| POther (truth : bool) (shown : string).

#[global] Instance pyval_eq_dec : EqDecision pyval.
Proof. solve_decision. Defined.

(** [bool(v)]: [None] and the empty string are false. *)
Definition truthy (v : pyval) : bool :=
  match v with
  | PNone => false
  | PStr s => match s with EmptyString => false | String _ _ => true end
  | POther b _ => b
  end.

(** [str(v)], the text an f-string field [{v}] expands to. *)
Definition py_str (v : pyval) : string :=
  match v with
  | PNone => "None"
  | PStr s => s
  | POther _ shown => shown
  end.

(** [a or b] *)
Definition py_or (a b : pyval) : pyval := if truthy a then a else b.

(** A dict with text keys; [d.get(key, default)]. *)
Abbreviation dict := (gmap string pyval).

Definition dict_get (d : dict) (key : string) (dflt : pyval) : pyval :=
  default dflt (d !! key).

(** An environment variable read with [os.getenv]: [None] when unset. *)
Definition env_str (v : option string) : string :=
  match v with Some s => s | None => "None" end.

(** *** [str.strip()]

    A character of a Python string is an [ascii] here, read as the code point
    of the same number; the white space among the code points below 256 is
    what [str.isspace] accepts there. *)
Definition isspace (c : ascii) : bool :=
  let n := nat_of_ascii c in
  (((9 <=? n) && (n <=? 13)) || ((28 <=? n) && (n <=? 32))
   || (n =? 133) || (n =? 160))%nat.

Fixpoint lstrip (s : string) : string :=
  match s with
  | EmptyString => EmptyString
  | String c s' => if isspace c then lstrip s' else s
  end.

Fixpoint rstrip (s : string) : string :=
  match s with
  | EmptyString => EmptyString
  | String c s' =>
      match rstrip s' with
      | EmptyString => if isspace c then EmptyString else String c EmptyString
      | r => String c r
      end
  end.

Definition strip (s : string) : string := rstrip (lstrip s).

(** ** Exceptions *)

(** The exception classes the script names or can meet, with the base class
    of each.  Every one of them derives from [Exception]. *)
Inductive exn_class : Type :=
| Exception
| RequestException
| ConnectionError
| HTTPError
| Timeout
| SMTPException
| SMTPAuthenticationError
| IndexError
| AttributeError
| ValueError
| UnicodeEncodeError.

#[global] Instance exn_class_eq_dec : EqDecision exn_class.
Proof. solve_decision. Defined.

Definition base_class (c : exn_class) : option exn_class :=
  match c with
  | Exception => None
  | ConnectionError | HTTPError | Timeout => Some RequestException
  | SMTPAuthenticationError => Some SMTPException
  | UnicodeEncodeError => Some ValueError
  | RequestException | SMTPException
  | IndexError | AttributeError | ValueError => Some Exception
  end.

Fixpoint issubclass_upto (depth : nat) (c d : exn_class) : bool :=
  if decide (c = d) then true
  else match depth, base_class c with
       | S depth', Some b => issubclass_upto depth' b d
       | _, _ => false
       end.

(** The hierarchy above is two levels deep. *)
Definition issubclass : exn_class → exn_class → bool := issubclass_upto 2.

(** A raised exception: its class and [str(e)]. *)
Record exn : Type := Exn { exn_class_of : exn_class; exn_str : string }.

Definition isinstance (e : exn) (c : exn_class) : bool :=
  issubclass (exn_class_of e) c.
Arguments isinstance : simpl never.

Inductive outcome (A : Type) : Type :=
| Returned (a : A)
| Raised (e : exn).
Arguments Returned {A} a.
Arguments Raised {A} e.

(** ** The outside world *)

(** An article of the news API: a JSON object. *)
Abbreviation article := (gmap string pyval).

(** The decoded JSON body of the news API, of which the script reads the
    [articles] key only: absent, or an array of article objects. *)
Record news_body : Type := NewsBody { body_articles : option (list article) }.

(** What [requests.get] hands back: the status line and what
    [response.json()] will give.  [http_error_text] is the message that
    [raise_for_status] puts in its [HTTPError]. *)
Record response : Type := Response {
  status_code : Z;
  http_error_text : string;
  response_json : outcome news_body
}.

(** A chat completion: [choices[i].message.content], which may be [None]. *)
Record choice : Type := Choice { message_content : option string }.
Record completion : Type := Completion { choices : list choice }.

(** The message built by [send_email]: its three headers and the HTML part
    attached to it. *)
Record mime_message : Type := MimeMessage {
  msg_From : option string;
  msg_To : option string;
  msg_Subject : string;
  msg_html : string
}.

(** The calls made on the [smtplib.SMTP] object. *)
Inductive smtp_call : Type :=
| SMTP_open (host : string) (port : Z)
| SMTP_starttls
| SMTP_login (user password : option string)
| SMTP_sendmail (from_addr to_addrs : option string) (msg : mime_message)
| SMTP_quit.

(** One observable effect of the script. *)
Inductive event : Type :=
| Print (line : string)
| HttpGet (url : string)
| ChatCompletion (model system_prompt : string) (user_content : pyval)
| Smtp (call : smtp_call).

Abbreviation trace := (list event).

Definition is_http (ev : event) : bool :=
  match ev with HttpGet _ => true | _ => false end.
Definition is_chat (ev : event) : bool :=
  match ev with ChatCompletion _ _ _ => true | _ => false end.
Definition is_smtp (ev : event) : bool :=
  match ev with Smtp _ => true | _ => false end.
Definition is_smtp_open (ev : event) : bool :=
  match ev with Smtp (SMTP_open _ _) => true | _ => false end.

(** How many events of one kind a trace holds. *)
Definition calls (kind : event → bool) (t : trace) : nat :=
  length (filter (λ ev, kind ev = true) t).

(** The answers of the outside world.  The [n]-th call of a kind (counted
    from 0 over the whole run) may be answered differently from the others,
    and the answer may depend on what is asked. *)
Record world : Type := World {
  requests_get : nat → string → outcome response;
  chat_completions_create : nat → pyval → outcome completion;
  smtp_answer : nat → smtp_call → option exn;
  (** What [MIMEText(text, 'html')] raises, if it raises: a
      [UnicodeEncodeError] for a text it cannot encode (one that holds a
      lone surrogate, which JSON decoding can deliver).  The texts of this
      file are over the code points below 256, none of which is a
      surrogate, so which texts are refused is given with the world. *)
  mime_text_error : string → option exn;
  (** [datetime.now().strftime("%B %d, %Y")] *)
  today_date : string
}.

(** The five values read from the environment when the module is loaded. *)
Record config : Type := Config {
  OPENAI_API_KEY : option string;
  NEWS_API_KEY : option string;
  SENDER_EMAIL : option string;
  SENDER_PASSWORD : option string;
  RECEIVER_EMAIL : option string
}.

(** ** Computations: a trace is threaded, an exception may be raised *)

Definition M (A : Type) : Type := trace → outcome A * trace.

Definition ret {A} (a : A) : M A := λ t, (Returned a, t).

Definition raise {A} (e : exn) : M A := λ t, (Raised e, t).

Definition bind {A B} (m : M A) (k : A → M B) : M B :=
  λ t, match m t with
       | (Returned a, t') => k a t'
       | (Raised e, t') => (Raised e, t')
       end.

Notation "'let*' x ':=' m 'in' k" := (bind m (λ x, k))
  (at level 10, x name, m at level 100, k at level 200, only parsing).
Notation "m '>>' k" := (bind m (λ _, k))
  (at level 62, right associativity, only parsing).

(** [print(line)] *)
Definition print (line : string) : M unit :=
  λ t, (Returned tt, t ++ [Print line]).

(** [try: body  except C1 as e: h1 e  except C2 as e: h2 e ...]: the first
    clause whose class the exception is an instance of handles it; with no
    such clause the exception goes on to the caller. *)
Fixpoint handle {A} (clauses : list (exn_class * (exn → M A))) (e : exn)
  : M A :=
  match clauses with
  | [] => raise e
  | (c, h) :: rest => if isinstance e c then h e else handle rest e
  end.

Definition try_except {A} (body : M A)
    (clauses : list (exn_class * (exn → M A))) : M A :=
  λ t, match body t with
       | (Returned a, t') => (Returned a, t')
       | (Raised e, t') => handle clauses e t'
       end.

(** [for x in xs: acc = body(acc, x)], for a loop that updates one local. *)
Fixpoint for_each {A S} (xs : list A) (body : S → A → M S) (acc : S) : M S :=
  match xs with
  | [] => ret acc
  | x :: rest => let* acc' := body acc x in for_each rest body acc'
  end.

Section Script.

Variable w : world.
Variable cfg : config.

(** *** Calls to the outside: the call is recorded, then answered *)

Definition http_get (url : string) : M response :=
  λ t, (requests_get w (calls is_http t) url, t ++ [HttpGet url]).

(** [response.raise_for_status()] of [requests]: an [HTTPError] for a status
    from 400 up to 599. *)
Definition raise_for_status (r : response) : M unit :=
  if ((400 <=? status_code r) && (status_code r <? 600))%Z
  then raise (Exn HTTPError (http_error_text r))
  else ret tt.

Definition json (r : response) : M news_body :=
  match response_json r with
  | Returned data => ret data
  | Raised e => raise e
  end.

Definition system_prompt : string :=
  "You are a newsletter assistant. Summarize the following news article content into one concise paragraph (3-4 sentences).".

Definition chat_create (content : pyval) : M completion :=
  λ t, (chat_completions_create w (calls is_chat t) content,
        t ++ [ChatCompletion "gpt-3.5-turbo" system_prompt content]).

Definition smtp (call : smtp_call) : M unit :=
  λ t, (match smtp_answer w (calls is_smtp t) call with
        | None => Returned tt
        | Some e => Raised e
        end, t ++ [Smtp call]).

(** [xs[0]] *)
Definition first_item {A} (xs : list A) : M A :=
  match xs with
  | x :: _ => ret x
  | [] => raise (Exn IndexError "list index out of range")
  end.

(** [content.strip()], where [content] may be [None] *)
Definition strip_of (content : option string) : M string :=
  match content with
  | Some s => ret (strip s)
  | None => raise (Exn AttributeError
                     "'NoneType' object has no attribute 'strip'")
  end.

(** *** [fetch_articles] (lines 30-54) *)

Definition news_url (topic : string) (num_articles : Z) : string :=
  "https://newsapi.org/v2/everything?"
  +:+ "q=" +:+ topic +:+ "&"
  +:+ "sortBy=publishedAt&"
  +:+ "pageSize=" +:+ pretty num_articles +:+ "&"
  +:+ "apiKey=" +:+ env_str (NEWS_API_KEY cfg).

Definition fetch_articles (topic : string) (num_articles : Z)
  : M (list article) :=
  print ("Fetching " +:+ pretty num_articles +:+ " articles for '"
         +:+ topic +:+ "'...") >>
  try_except
    (let url := news_url topic num_articles in
     let* response := http_get url in
     raise_for_status response >>
     let* data := json response in
     print "...Articles fetched successfully." >>
     ret (default [] (body_articles data)))
    [ (RequestException,
       λ e, print ("Error fetching news: " +:+ exn_str e) >> ret []) ].

(** *** [summarize_article] (lines 59-82) *)

Definition no_content_sentinel : string := "No content provided to summarize.".
Definition could_not_sentinel : string := "Could not summarize this article.".

Definition summarize_article (article_content : pyval) : M string :=
  if negb (truthy article_content) then ret no_content_sentinel
  else
    print "Summarizing article content with AI..." >>
    try_except
      (let* response := chat_create article_content in
       print "...Summary generated." >>
       let* first_choice := first_item (choices response) in
       strip_of (message_content first_choice))
      [ (Exception,
         λ e, print ("Error summarizing text: " +:+ exn_str e) >>
              ret could_not_sentinel) ].

(** *** [send_email] (lines 87-120) *)

Definition auth_failed_banner : string := "---!!! AUTHENTICATION FAILED !!!---".
Definition auth_failed_advice : string :=
  "Error: SMTP Authentication failed. Check your SENDER_EMAIL and SENDER_PASSWORD (App Password) in the .env file.".

(** Lines 94-100: the message object, its three headers and the HTML
    part.  They come before the [try] of line 102, so an exception of
    [MIMEText] is not caught by [send_email]. *)
Definition build_message (subject html_content : string) : M mime_message :=
  match mime_text_error w html_content with
  | Some e => raise e
  | None => ret {| msg_From := SENDER_EMAIL cfg;
                   msg_To := RECEIVER_EMAIL cfg;
                   msg_Subject := subject;
                   msg_html := html_content |}
  end.

Definition send_email (subject html_content : string) : M unit :=
  print ("Connecting to email server to send to "
         +:+ env_str (RECEIVER_EMAIL cfg) +:+ "...") >>
  let* msg := build_message subject html_content in
  try_except
    (smtp (SMTP_open "smtp.gmail.com" 587) >>
     smtp SMTP_starttls >>
     smtp (SMTP_login (SENDER_EMAIL cfg) (SENDER_PASSWORD cfg)) >>
     smtp (SMTP_sendmail (SENDER_EMAIL cfg) (RECEIVER_EMAIL cfg) msg) >>
     smtp SMTP_quit >>
     print "Email sent successfully!")
    [ (SMTPAuthenticationError,
       λ _, print auth_failed_banner >> print auth_failed_advice);
      (Exception,
       λ e, print ("Error sending email: " +:+ exn_str e)) ].

(** *** [main] (lines 125-176) *)

Definition topics_of_interest : list string :=
  ["AI in medicine"; "US economic outlook"; "NASA Artemis program"].

Definition email_header : string :=
  "<h1>Your AI-Powered News Briefing</h1><p>Here are the top stories for today:</p>".

Definition topic_heading (topic : string) : string :=
  "<h2>Today's News on: " +:+ topic +:+ "</h2>".

Definition indent12 : string := "            ".
Definition indent16 : string := "                ".

(** The triple-quoted f-string of lines 160-165. *)
Definition article_fragment (url title : pyval) (summary : string) : string :=
  newline
  +:+ indent12 +:+ "<div style=" +:+ dquote
      +:+ "margin-bottom: 25px; border-bottom: 1px solid #eee; padding-bottom: 15px;"
      +:+ dquote +:+ ">" +:+ newline
  +:+ indent16 +:+ "<h3 style=" +:+ dquote +:+ "margin: 0 0 5px 0;" +:+ dquote
      +:+ "><a href='" +:+ py_str url
      +:+ "' style='color: #0056b3; text-decoration: none;'>"
      +:+ py_str title +:+ "</a></h3>" +:+ newline
  +:+ indent16 +:+ "<p style=" +:+ dquote +:+ "margin: 0; font-size: 16px;"
      +:+ dquote +:+ ">" +:+ summary +:+ "</p>" +:+ newline
  +:+ indent12 +:+ "</div>" +:+ newline
  +:+ indent12.

(** [article.get('content') or article.get('description')] *)
Definition content_to_summarize (a : article) : pyval :=
  py_or (dict_get a "content" PNone) (dict_get a "description" PNone).

(** The body of the inner loop (lines 149-165). *)
Definition article_step (email_body : string) (a : article) : M string :=
  let title := dict_get a "title" (PStr "No Title") in
  let url := dict_get a "url" (PStr "#") in
  let* summary := summarize_article (content_to_summarize a) in
  ret (email_body +:+ article_fragment url title summary).

(** The body of the outer loop (lines 139-165). *)
Definition topic_step (email_body : string) (topic : string) : M string :=
  let* articles := fetch_articles topic 2 in
  match articles with
  | [] => print ("No articles found for " +:+ topic +:+ ".") >> ret email_body
  | _ :: _ =>
      for_each articles article_step (email_body +:+ topic_heading topic)
  end.

Definition no_email_line : string :=
  "No articles found for any topic. No email to send.".

(** [main], for any list of topics in place of the one written in it. *)
Definition main_for (topics : list string) : M unit :=
  print "Starting the AI Newsletter Generator..." >>
  let* email_body := for_each topics topic_step email_header in
  let email_subject := "Your Daily AI News Briefing - " +:+ today_date w in
  match email_body with
  | String _ _ => send_email email_subject email_body
  | EmptyString => print no_email_line
  end >>
  print "Newsletter generation complete.".

Definition main : M unit := main_for topics_of_interest.

End Script.

(** ** What a call comes to, as a function of the world's answer *)

Section Denotations.

Variable w : world.
Variable cfg : config.

(** A failure of the news request at the transport level: [requests] raised
    one of its own exceptions (a connection error, a timeout, ...), or the
    response came back with an error status. *)
Inductive transport_failure : outcome response → Prop :=
| request_failed (e : exn) :
    isinstance e RequestException = true → transport_failure (Raised e)
| error_status (r : response) :
    (400 ≤ status_code r < 600)%Z → transport_failure (Returned r).

(** The value [fetch_articles] comes to, given the answer to its GET. *)
Definition fetch_outcome (answer : outcome response)
  : outcome (list article) :=
  match answer with
  | Raised e => if isinstance e RequestException then Returned [] else Raised e
  | Returned r =>
      if ((400 <=? status_code r) && (status_code r <? 600))%Z then Returned []
      else match response_json r with
           | Returned data => Returned (default [] (body_articles data))
           | Raised e =>
               if isinstance e RequestException then Returned [] else Raised e
           end
  end.

(** The lines it prints after the request. *)
Definition fetch_report (answer : outcome response) : list event :=
  match answer with
  | Raised e =>
      if isinstance e RequestException
      then [Print ("Error fetching news: " +:+ exn_str e)] else []
  | Returned r =>
      if ((400 <=? status_code r) && (status_code r <? 600))%Z
      then [Print ("Error fetching news: " +:+ http_error_text r)]
      else match response_json r with
           | Returned data => [Print "...Articles fetched successfully."]
           | Raised e =>
               if isinstance e RequestException
               then [Print ("Error fetching news: " +:+ exn_str e)] else []
           end
  end.

(** The fetch for [topic] made as request number [h] of the run. *)
Definition fetched (h : nat) (topic : string) (num : Z)
  : outcome (list article) :=
  fetch_outcome (requests_get w h (news_url cfg topic num)).

(** The text [summarize_article] comes to, given the answer of the chat API,
    and the lines it prints after the call. *)
Definition summary_outcome (answer : outcome completion) : string :=
  match answer with
  | Raised _ => could_not_sentinel
  | Returned r =>
      match choices r with
      | [] => could_not_sentinel
      | c :: _ =>
          match message_content c with
          | Some s => strip s
          | None => could_not_sentinel
          end
      end
  end.

Definition summary_report (answer : outcome completion) : list event :=
  match answer with
  | Raised e => [Print ("Error summarizing text: " +:+ exn_str e)]
  | Returned r =>
      Print "...Summary generated." ::
      match choices r with
      | [] => [Print "Error summarizing text: list index out of range"]
      | c :: _ =>
          match message_content c with
          | Some _ => []
          | None => [Print "Error summarizing text: 'NoneType' object has no attribute 'strip'"]
          end
      end
  end.

(** The summary of [content] when [n] chat calls were made before. *)
Definition summary_at (n : nat) (content : pyval) : string :=
  if truthy content
  then summary_outcome (chat_completions_create w n content)
  else no_content_sentinel.

Definition summarize_log (n : nat) (content : pyval) : list event :=
  if truthy content
  then Print "Summarizing article content with AI..."
       :: ChatCompletion "gpt-3.5-turbo" system_prompt content
       :: summary_report (chat_completions_create w n content)
  else [].

(** What [fetch_articles] adds to the trace, as request number [h]. *)
Definition fetch_log (h : nat) (topic : string) (num : Z) : list event :=
  [Print ("Fetching " +:+ pretty num +:+ " articles for '"
          +:+ topic +:+ "'...");
   HttpGet (news_url cfg topic num)]
  ++ fetch_report (requests_get w h (news_url cfg topic num)).

(** The subject line [main] composes. *)
Definition email_subject : string :=
  "Your Daily AI News Briefing - " +:+ today_date w.

(** The calls [send_email] makes on the SMTP object, in order. *)
Definition send_script (subject html_content : string) : list smtp_call :=
  [SMTP_open "smtp.gmail.com" 587;
   SMTP_starttls;
   SMTP_login (SENDER_EMAIL cfg) (SENDER_PASSWORD cfg);
   SMTP_sendmail (SENDER_EMAIL cfg) (RECEIVER_EMAIL cfg)
     {| msg_From := SENDER_EMAIL cfg;
        msg_To := RECEIVER_EMAIL cfg;
        msg_Subject := subject;
        msg_html := html_content |};
   SMTP_quit].

(** A sequence of SMTP calls followed by [k]. *)
Definition smtp_then {A} (script : list smtp_call) (k : M A) : M A :=
  foldr (λ call rest, smtp w call >> rest) k script.

(** The calls of a script that are made, the first being SMTP call number
    [n] of the run, and the exception that stops it, if one does. *)
Fixpoint smtp_session (n : nat) (script : list smtp_call)
  : list event * option exn :=
  match script with
  | [] => ([], None)
  | call :: rest =>
      match smtp_answer w n call with
      | Some e => ([Smtp call], Some e)
      | None =>
          let '(made, failure) := smtp_session (S n) rest in
          (Smtp call :: made, failure)
      end
  end.

(** The lines [send_email] prints after the session. *)
Definition send_report (failure : option exn) : list event :=
  match failure with
  | None => [Print "Email sent successfully!"]
  | Some e =>
      if isinstance e SMTPAuthenticationError
      then [Print auth_failed_banner; Print auth_failed_advice]
      else [Print ("Error sending email: " +:+ exn_str e)]
  end.

Definition send_log (n : nat) (subject html_content : string) : list event :=
  Print ("Connecting to email server to send to "
         +:+ env_str (RECEIVER_EMAIL cfg) +:+ "...")
  :: (smtp_session n (send_script subject html_content)).1
  ++ send_report (smtp_session n (send_script subject html_content)).2.

End Denotations.

(** ** The composed document, as the design describes it

    A fixed header, then one section per topic that has articles: a heading
    naming the topic, then one fragment per article, in the order of the
    fetcher, with the title linked to the URL and the summary after it. *)

(** The fixed text of an article fragment around its three fields. *)
Definition hyperlink (target text : string) : string :=
  "<a href='" +:+ target
  +:+ "' style='color: #0056b3; text-decoration: none;'>" +:+ text +:+ "</a>".

Definition fragment_before_link : string :=
  newline
  +:+ indent12 +:+ "<div style=" +:+ dquote
      +:+ "margin-bottom: 25px; border-bottom: 1px solid #eee; padding-bottom: 15px;"
      +:+ dquote +:+ ">" +:+ newline
  +:+ indent16 +:+ "<h3 style=" +:+ dquote +:+ "margin: 0 0 5px 0;" +:+ dquote
      +:+ ">".

Definition fragment_after_link : string :=
  "</h3>" +:+ newline
  +:+ indent16 +:+ "<p style=" +:+ dquote +:+ "margin: 0; font-size: 16px;"
      +:+ dquote +:+ ">".

Definition fragment_after_summary : string :=
  "</p>" +:+ newline +:+ indent12 +:+ "</div>" +:+ newline +:+ indent12.

Fixpoint join (parts : list string) : string :=
  match parts with
  | [] => ""
  | p :: rest => p +:+ join rest
  end.

Record section : Type := MkSection {
  section_topic : string;
  section_items : list (article * string)   (* an article and its summary *)
}.

Definition render_item (item : article * string) : string :=
  article_fragment (dict_get item.1 "url" (PStr "#"))
                   (dict_get item.1 "title" (PStr "No Title")) item.2.

Definition render_section (s : section) : string :=
  topic_heading (section_topic s) +:+ join (map render_item (section_items s)).

Definition render_document (sections : list section) : string :=
  email_header +:+ join (map render_section sections).


(** *** The sections of one run

    The fetches of a run are its requests number [h], [h+1], ... in topic
    order; the chat calls are numbered in the order of the articles that have
    a text to summarise. *)

Section RunRecord.

Variable w : world.
Variable cfg : config.

Definition chat_calls_for (a : article) : nat :=
  if truthy (content_to_summarize a) then 1 else 0.

Fixpoint chat_calls_for_all (arts : list article) : nat :=
  match arts with
  | [] => 0
  | a :: rest => chat_calls_for a + chat_calls_for_all rest
  end.

Fixpoint summarized (n : nat) (arts : list article) : list (article * string) :=
  match arts with
  | [] => []
  | a :: rest =>
      (a, summary_at w n (content_to_summarize a))
      :: summarized (n + chat_calls_for a) rest
  end.

Fixpoint sections_at (h n : nat) (topics : list string) : list section :=
  match topics with
  | [] => []
  | topic :: rest =>
      match fetched w cfg h topic 2 with
      | Returned [] => sections_at (S h) n rest
      | Returned arts =>
          MkSection topic (summarized n arts)
          :: sections_at (S h) (n + chat_calls_for_all arts) rest
      | Raised _ => []
      end
  end.

(** The chat calls made for the articles of the sections. *)
Definition sections_chat_calls (sections : list section) : nat :=
  sum_list (map (λ s, chat_calls_for_all (map fst (section_items s)))
              sections).

(** Every fetch of the run returns (possibly nothing): none lets an
    exception through. *)
Fixpoint fetches_return (h : nat) (topics : list string) : bool :=
  match topics with
  | [] => true
  | topic :: rest =>
      match fetched w cfg h topic 2 with
      | Returned _ => fetches_return (S h) rest
      | Raised _ => false
      end
  end.

(** The topics whose fetch returned at least one article. *)
Fixpoint topics_with_articles (h : nat) (topics : list string) : list string :=
  match topics with
  | [] => []
  | topic :: rest =>
      match fetched w cfg h topic 2 with
      | Returned (_ :: _) => topic :: topics_with_articles (S h) rest
      | _ => topics_with_articles (S h) rest
      end
  end.

End RunRecord.

(** ** A small run, for the examples

    Two topics, "A" and "B": the first request returns one article with the
    title "T1", the URL "u1" and the content "c1"; every later request fails
    to connect.  The chat API answers with a padded summary, and the mail
    relay refuses the login. *)

Definition example_article : article :=
  <["title" := PStr "T1"]> (<["url" := PStr "u1"]>
    (<["content" := PStr "c1"]> ∅)).

(** An article with none of the four fields. *)
Definition bare_article : article := ∅.

Definition example_world : world := {|
  requests_get := λ n url,
    match n with
    | 0 => Returned {| status_code := 200; http_error_text := "";
                       response_json :=
                         Returned (NewsBody (Some [example_article])) |}
    | _ => Raised (Exn ConnectionError "connection refused")
    end;
  chat_completions_create := λ n content,
    Returned (Completion [Choice (Some "  summary of c1 ")]);
  smtp_answer := λ n call,
    match call with
    | SMTP_login _ _ => Some (Exn SMTPAuthenticationError "bad credentials")
    | _ => None
    end;
  mime_text_error := λ text, None;
  today_date := "November 04, 2026"
|}.

(** The same world with a chat API that is down. *)
Definition example_world_chat_down : world := {|
  requests_get := requests_get example_world;
  chat_completions_create := λ n content, Raised (Exn Timeout "timed out");
  smtp_answer := smtp_answer example_world;
  mime_text_error := mime_text_error example_world;
  today_date := today_date example_world
|}.

(** A world in the manner of a test double: the request for topic "A"
    returns the example article, any other request returns a body with no
    [articles] key; the chat API gives one fixed text; the mail relay accepts
    everything. *)
Definition mock_world (cfg : config) : world := {|
  requests_get := λ n url,
    Returned {| status_code := 200; http_error_text := "";
                response_json :=
                  Returned (NewsBody
                              (if decide (url = news_url cfg "A" 2)
                               then Some [example_article] else None)) |};
  chat_completions_create := λ n content,
    Returned (Completion [Choice (Some "summary of c1")]);
  smtp_answer := λ n call, None;
  mime_text_error := λ text, None;
  today_date := "November 04, 2026"
|}.



Definition example_config : config := {|
  OPENAI_API_KEY := Some "sk";
  NEWS_API_KEY := Some "key";
  SENDER_EMAIL := Some "from@example.org";
  SENDER_PASSWORD := Some "app-password";
  RECEIVER_EMAIL := Some "to@example.org"
|}.

(** ** The text of the document, written out

    The same document as above, from the text of the design alone: the
    header, the heading of a topic, and the fragment of an article with its
    link and its summary. *)

Definition expected_header : string :=
  "<h1>Your AI-Powered News Briefing</h1><p>Here are the top stories for today:</p>".

Definition expected_heading (topic : string) : string :=
  "<h2>Today's News on: " +:+ topic +:+ "</h2>".

(** The text shown for the title and the target of the link: the value
    under the key, formatted, or the placeholder when the key is missing. *)
Definition link_text (a : article) : string :=
  match a !! "title" with Some v => py_str v | None => "No Title" end.

Definition link_target (a : article) : string :=
  match a !! "url" with Some v => py_str v | None => "#" end.

Definition expected_fragment (a : article) (summary : string) : string :=
  fragment_before_link +:+ hyperlink (link_target a) (link_text a)
  +:+ fragment_after_link +:+ summary +:+ fragment_after_summary.

(** The text of a list of sections. *)
Definition expected_body (sections : list section) : string :=
  expected_header
  +:+ join (map (λ s,
                   expected_heading (section_topic s)
                   +:+ join (map (λ item, expected_fragment item.1 item.2)
                               (section_items s)))
              sections).


(** ** Occurrences of a text in another *)

Fixpoint starts_with (pat s : string) : bool :=
  match pat with
  | EmptyString => true
  | String p pat' =>
      match s with
      | EmptyString => false
      | String c s' => bool_decide (p = c) && starts_with pat' s'
      end
  end.

(** The number of places of [s] at which [pat] (not empty) starts. *)
Fixpoint occurrences (pat s : string) : nat :=
  match s with
  | EmptyString => 0
  | String c s' =>
      (if starts_with pat (String c s') then 1 else 0) + occurrences pat s'
  end.

(** The opening tag of a topic heading. *)
Definition heading_tag : string := "<h2>".

(** A text in which no heading tag occurs. *)
Definition clean (text : string) : bool :=
  Nat.eqb (occurrences heading_tag text) 0.

Definition clean_item (item : article * string) : bool :=
  clean (link_target item.1) && clean (link_text item.1) && clean item.2.

Definition clean_section (s : section) : bool :=
  clean (section_topic s) && forallb clean_item (section_items s).

Definition clean_sections (sections : list section) : bool :=
  forallb clean_section sections.

(** Whether the tag can lie across the end of [a] and the start of [b]: it
    cannot when [a] does not end with one of its first three characters, or
    when [b] does not start with one of its last three. *)
Fixpoint last_char (s : string) : option ascii :=
  match s with
  | EmptyString => None
  | String c EmptyString => Some c
  | String _ s' => last_char s'
  end.

Definition ends_safely (a : string) : bool :=
  match last_char a with
  | None => true
  | Some c =>
      negb (bool_decide (c = "<"%char) || bool_decide (c = "h"%char)
            || bool_decide (c = "2"%char))
  end.

Definition starts_safely (b : string) : bool :=
  match b with
  | EmptyString => true
  | String c _ =>
      negb (bool_decide (c = "h"%char) || bool_decide (c = "2"%char)
            || bool_decide (c = ">"%char))
  end.

(** ** Further worlds and articles for the examples *)

(** The news API returns, for the first topic, an article whose title is
    itself the markup of a heading (naming the second topic), and nothing
    for the topics after it. *)
Definition heading_in_title : article :=
  <["title" := PStr "<h2>Today's News on: B</h2>"]>
    (<["url" := PStr "u1"]> (<["content" := PStr "c1"]> ∅)).

Definition injected_world : world := {|
  requests_get := λ n url,
    Returned {| status_code := 200; http_error_text := "";
                response_json :=
                  Returned (NewsBody (match n with
                                      | 0 => Some [heading_in_title]
                                      | _ => Some []
                                      end)) |};
  chat_completions_create := chat_completions_create example_world;
  smtp_answer := λ n call, None;
  mime_text_error := λ text, None;
  today_date := today_date example_world
|}.

(** A world in which [MIMEText] refuses the body: it stands for a run whose
    body holds a lone surrogate, as a title decoded from JSON can. *)
Definition refusing_world : world := {|
  requests_get := requests_get example_world;
  chat_completions_create := chat_completions_create example_world;
  smtp_answer := λ n call, None;
  mime_text_error := λ text,
    Some (Exn UnicodeEncodeError
            "'utf-8' codec can't encode character: surrogates not allowed");
  today_date := today_date example_world
|}.

(** An article whose title and URL are present and null. *)
Definition null_title_article : article :=
  <["title" := PNone]> (<["url" := PNone]> (<["content" := PStr "c1"]> ∅)).

(** ** Reading a trace

    The requests, the chat calls and the SMTP calls of a trace, each in the
    order in which they were made. *)

Definition http_urls (t : trace) : list string :=
  omap (λ ev, match ev with HttpGet url => Some url | _ => None end) t.

Definition chat_contents (t : trace) : list pyval :=
  omap (λ ev, match ev with ChatCompletion _ _ c => Some c | _ => None end) t.

Definition smtp_calls_of (t : trace) : list smtp_call :=
  omap (λ ev, match ev with Smtp call => Some call | _ => None end) t.

(** White space at the ends of a text. *)
Fixpoint all_space (s : string) : bool :=
  match s with
  | EmptyString => true
  | String c s' => isspace c && all_space s'
  end.

Definition starts_with_space (s : string) : bool :=
  match s with
  | EmptyString => false
  | String c _ => isspace c
  end.

Fixpoint ends_with_space (s : string) : bool :=
  match s with
  | EmptyString => false
  | String c EmptyString => isspace c
  | String _ s' => ends_with_space s'
  end.

Section RunArticles.

Variable w : world.
Variable cfg : config.

(** The articles the fetches of a run return, in the order of the topics,
    up to a fetch that raises. *)
Fixpoint run_articles (h : nat) (topics : list string) : list article :=
  match topics with
  | [] => []
  | topic :: rest =>
      match fetched w cfg h topic 2 with
      | Returned arts => arts ++ run_articles (S h) rest
      | Raised _ => []
      end
  end.

(** The exception of the first fetch of a run that raises, if one does. *)
Fixpoint first_fetch_error (h : nat) (topics : list string) : option exn :=
  match topics with
  | [] => None
  | topic :: rest =>
      match fetched w cfg h topic 2 with
      | Returned _ => first_fetch_error (S h) rest
      | Raised e => Some e
      end
  end.

End RunArticles.

(** Worlds for further examples: a news API whose body does not decode, with
    a decoder that raises a [ValueError]; a chat API that answers without
    any choice. *)
Definition example_world_bad_json : world := {|
  requests_get := λ n url,
    Returned {| status_code := 200; http_error_text := "";
                response_json := Raised (Exn ValueError "Expecting value") |};
  chat_completions_create := chat_completions_create example_world;
  smtp_answer := smtp_answer example_world;
  mime_text_error := mime_text_error example_world;
  today_date := today_date example_world
|}.

Definition example_world_no_choice : world := {|
  requests_get := requests_get example_world;
  chat_completions_create := λ n content, Returned (Completion []);
  smtp_answer := smtp_answer example_world;
  mime_text_error := mime_text_error example_world;
  today_date := today_date example_world
|}.

(** * Properties *)

(** ** Traces and strings *)

Lemma calls_app (kind : event → bool) (t1 t2 : trace) :
  calls kind (t1 ++ t2) = calls kind t1 + calls kind t2.
Proof. unfold calls. by rewrite filter_app, length_app. Qed.

Lemma calls_print (kind : event → bool) (t : trace) (line : string) :
  kind (Print line) = false → calls kind (t ++ [Print line]) = calls kind t.
Proof.
  intros Hk. rewrite calls_app. unfold calls at 2.
  rewrite filter_cons_False, filter_nil by (rewrite Hk; discriminate).
  simpl. lia.
Qed.

Lemma string_app_cons (x : ascii) (a b : string) :
  String x a +:+ b = String x (a +:+ b).
Proof. reflexivity. Qed.

Lemma string_app_assoc (a b c : string) : (a +:+ b) +:+ c = a +:+ b +:+ c.
Proof.
  induction a as [|x a IH]; [done|]. by rewrite !string_app_cons, IH.
Qed.

Lemma string_app_nil_r (a : string) : a +:+ "" = a.
Proof.
  induction a as [|x a IH]; [done|]. by rewrite string_app_cons, IH.
Qed.

(** ** White space at the ends of a text *)

Lemma lstrip_split (s : string) :
  ∃ before, s = before +:+ lstrip s ∧ all_space before = true.
Proof.
  induction s as [|c s (before & IH & Hsp)]; [by exists ""|].
  cbn [lstrip]. destruct (isspace c) eqn:Hc; [|by exists ""].
  exists (String c before). rewrite string_app_cons, <- IH. cbn.
  by rewrite Hc.
Qed.

Lemma lstrip_start (s : string) : starts_with_space (lstrip s) = false.
Proof.
  induction s as [|c s IH]; [done|]. cbn [lstrip].
  destruct (isspace c) eqn:Hc; [done|]. by cbn.
Qed.

Lemma rstrip_split (s : string) :
  ∃ after, s = rstrip s +:+ after ∧ all_space after = true.
Proof.
  induction s as [|c s (after & IH & Hsp)]; [by exists ""|].
  cbn [rstrip]. destruct (rstrip s) as [|d r] eqn:Hr.
  - change ("" +:+ after) with after in IH. subst after.
    destruct (isspace c) eqn:Hc.
    + exists (String c s). split; [done|]. cbn. by rewrite Hc.
    + by exists s.
  - exists after. split; [|done]. by rewrite string_app_cons, <- IH.
Qed.

Lemma rstrip_end (s : string) : ends_with_space (rstrip s) = false.
Proof.
  induction s as [|c s IH]; [done|]. cbn [rstrip].
  destruct (rstrip s) as [|d r]; [|done].
  destruct (isspace c) eqn:Hc; [done|]. by cbn.
Qed.

Lemma rstrip_start (s : string) :
  starts_with_space s = false → starts_with_space (rstrip s) = false.
Proof.
  destruct s as [|c s]; [done|]. cbn. intros Hc.
  destruct (rstrip s); [by rewrite Hc|done].
Qed.

(** ** Exception classes *)

Lemma isinstance_Exception (e : exn) : isinstance e Exception = true.
Proof. by destruct e as [[] msg]. Qed.

Lemma isinstance_HTTPError (msg : string) :
  isinstance (Exn HTTPError msg) RequestException = true.
Proof. reflexivity. Qed.

(** ** [fetch_articles] *)

Section Fetch.

Variable w : world.
Variable cfg : config.

Lemma fetch_articles_run (topic : string) (num : Z) (t : trace) :
  let answer := requests_get w (calls is_http t) (news_url cfg topic num) in
  fetch_articles w cfg topic num t =
    (fetch_outcome answer,
     t ++ [Print ("Fetching " +:+ pretty num +:+ " articles for '"
                  +:+ topic +:+ "'...");
           HttpGet (news_url cfg topic num)] ++ fetch_report answer).
Proof.
  cbv zeta. unfold fetch_articles, bind, print, try_except, http_get.
  rewrite calls_print by done.
  rewrite <- (app_assoc t). cbn [app].
  destruct (requests_get w _ _) as [r|e]; cbn.
  - unfold raise_for_status, json, raise, ret.
    destruct ((400 <=? status_code r)%Z && (status_code r <? 600)%Z); cbn.
    + rewrite isinstance_HTTPError. by rewrite <- app_assoc.
    + destruct (response_json r) as [data|e]; cbn.
      * by rewrite <- app_assoc.
      * destruct (isinstance e RequestException); cbn;
          [by rewrite <- app_assoc|done].
  - destruct (isinstance e RequestException); cbn;
      [by rewrite <- app_assoc|done].
Qed.

End Fetch.

(** ** [summarize_article] *)

Section Summarize.

Variable w : world.

Lemma summarize_article_run (content : pyval) (t : trace) :
  summarize_article w content t =
    (Returned (summary_at w (calls is_chat t) content),
     t ++ summarize_log w (calls is_chat t) content).
Proof.
  unfold summarize_article, summary_at, summarize_log.
  destruct (truthy content); cbn; [|by rewrite app_nil_r].
  unfold bind, print, try_except, chat_create.
  rewrite calls_print by done.
  rewrite <- (app_assoc t). cbn [app].
  destruct (chat_completions_create w _ _) as [[chs]|e]; cbn.
  - destruct chs as [|[[s|]] chs]; cbn; rewrite ?isinstance_Exception;
      cbn; by rewrite <- !app_assoc.
  - rewrite isinstance_Exception. cbn. by rewrite <- app_assoc.
Qed.

(** C2.  For an empty or absent text ([None], the empty string, any value
    that is false), [summarize_article] returns the sentinel
    "No content provided to summarize." and leaves the trace as it was:
    nothing is printed and the chat API is not called. *)
Theorem summarize_article_empty_input (content : pyval) (t : trace) :
  truthy content = false →
  summarize_article w content t
  = (Returned "No content provided to summarize.", t)
  ∧ calls is_chat (summarize_article w content t).2 = calls is_chat t.
Proof.
  intros Hempty. unfold summarize_article. by rewrite Hempty.
Qed.

(** C3.  For a text that is not empty: when the chat API call raises,
    whatever the exception, [summarize_article] returns the sentinel
    "Could not summarize this article." ; when the call returns a completion
    whose first choice carries a text, it returns that text trimmed: the
    text is white space, then the summary, then white space, and the summary
    neither starts nor ends with white space.  In every case it returns: no
    exception reaches the caller. *)
Theorem summarize_article_nonempty_input (content : pyval) (t : trace) :
  truthy content = true →
  let answer := chat_completions_create w (calls is_chat t) content in
  (∀ e, answer = Raised e →
     (summarize_article w content t).1
     = Returned "Could not summarize this article.")
  ∧ (∀ c rest s, answer = Returned (Completion (c :: rest)) →
       message_content c = Some s →
       ∃ summary before after,
         (summarize_article w content t).1 = Returned summary
         ∧ s = before +:+ summary +:+ after
         ∧ all_space before = true
         ∧ all_space after = true
         ∧ starts_with_space summary = false
         ∧ ends_with_space summary = false)
  ∧ (∃ summary, (summarize_article w content t).1 = Returned summary).
Proof.
  intros Hfull answer. rewrite summarize_article_run. cbn [fst].
  unfold summary_at. rewrite Hfull. fold answer.
  split; [|split].
  - intros e ->. reflexivity.
  - intros c rest s -> Hs. cbn. rewrite Hs.
    destruct (lstrip_split s) as (before & Hleft & Hbefore).
    destruct (rstrip_split (lstrip s)) as (after & Hright & Hafter).
    exists (strip s), before, after. split; [done|].
    split; [unfold strip; by rewrite <- Hright|].
    repeat split; try done.
    + apply rstrip_start, lstrip_start.
    + apply rstrip_end.
  - eauto.
Qed.

End Summarize.

(** ** The loops of [main] *)

Section Loops.

Variable w : world.
Variable cfg : config.

Lemma fetch_articles_fetched (topic : string) (num : Z) (t : trace) :
  fetch_articles w cfg topic num t =
    (fetched w cfg (calls is_http t) topic num,
     t ++ fetch_log w cfg (calls is_http t) topic num).
Proof. apply fetch_articles_run. Qed.

Lemma fetch_log_calls (h : nat) (topic : string) (num : Z) :
  calls is_http (fetch_log w cfg h topic num) = 1
  ∧ calls is_chat (fetch_log w cfg h topic num) = 0
  ∧ calls is_smtp (fetch_log w cfg h topic num) = 0.
Proof.
  unfold fetch_log, fetch_report.
  destruct (requests_get w h _) as [r|e].
  - destruct ((400 <=? status_code r)%Z && (status_code r <? 600)%Z);
      [done|].
    destruct (response_json r) as [data|e]; [done|].
    by destruct (isinstance e RequestException).
  - by destruct (isinstance e RequestException).
Qed.

Lemma summarize_log_calls (n : nat) (content : pyval) :
  calls is_http (summarize_log w n content) = 0
  ∧ calls is_chat (summarize_log w n content)
    = (if truthy content then 1 else 0)
  ∧ calls is_smtp (summarize_log w n content) = 0.
Proof.
  unfold summarize_log, summary_report.
  destruct (truthy content); [|done].
  destruct (chat_completions_create w n content) as [[chs]|e]; [|done].
  by destruct chs as [|[[s|]] chs].
Qed.

Lemma article_step_run (email_body : string) (a : article) (t : trace) :
  article_step w email_body a t =
    (Returned (email_body
               +:+ render_item
                     (a, summary_at w (calls is_chat t)
                           (content_to_summarize a))),
     t ++ summarize_log w (calls is_chat t) (content_to_summarize a)).
Proof.
  unfold article_step, bind. by rewrite summarize_article_run.
Qed.

Lemma articles_run (arts : list article) (email_body : string) (t : trace) :
  ∃ log,
    for_each arts (article_step w) email_body t =
      (Returned (email_body
                 +:+ join (map render_item
                             (summarized w (calls is_chat t) arts))),
       t ++ log)
    ∧ calls is_http log = 0
    ∧ calls is_chat log = chat_calls_for_all arts
    ∧ calls is_smtp log = 0.
Proof.
  revert email_body t.
  induction arts as [|a arts IH]; intros email_body t.
  - exists []. cbn. by rewrite string_app_nil_r, app_nil_r.
  - cbn [for_each]. unfold bind at 1. rewrite article_step_run.
    destruct (summarize_log_calls (calls is_chat t) (content_to_summarize a))
      as (Hh & Hc & Hs).
    destruct (IH (email_body
                  +:+ render_item
                        (a, summary_at w (calls is_chat t)
                              (content_to_summarize a)))
                 (t ++ summarize_log w (calls is_chat t)
                         (content_to_summarize a)))
      as (log & Hrun & Hh' & Hc' & Hs').
    exists (summarize_log w (calls is_chat t) (content_to_summarize a) ++ log).
    rewrite Hrun, calls_app, Hc. fold (chat_calls_for a).
    cbn [summarized map join].
    rewrite string_app_assoc, <- app_assoc, !calls_app.
    repeat split; [lia | | lia].
    rewrite Hc, Hc'. cbn [chat_calls_for_all]. by unfold chat_calls_for.
Qed.

Lemma summarized_articles (n : nat) (arts : list article) :
  map fst (summarized w n arts) = arts.
Proof.
  revert n. induction arts as [|a arts IH]; intros n; [done|].
  cbn. by rewrite IH.
Qed.

Lemma topic_step_run (email_body topic : string) (t : trace) :
  topic_step w cfg email_body topic t =
    match fetched w cfg (calls is_http t) topic 2 with
    | Raised e => (Raised e, t ++ fetch_log w cfg (calls is_http t) topic 2)
    | Returned [] =>
        (Returned email_body,
         t ++ fetch_log w cfg (calls is_http t) topic 2
           ++ [Print ("No articles found for " +:+ topic +:+ ".")])
    | Returned (a :: arts) =>
        for_each (a :: arts) (article_step w)
          (email_body +:+ topic_heading topic)
          (t ++ fetch_log w cfg (calls is_http t) topic 2)
    end.
Proof.
  unfold topic_step, bind at 1. rewrite fetch_articles_fetched.
  destruct (fetched w cfg _ topic 2) as [[|a arts]|e]; [|done..].
  unfold bind, print, ret. by rewrite <- app_assoc.
Qed.

(** The outer loop, when every fetch returns. *)
Lemma topics_run (topics : list string) (email_body : string) (t : trace) :
  fetches_return w cfg (calls is_http t) topics = true →
  ∃ log,
    for_each topics (topic_step w cfg) email_body t =
      (Returned (email_body
                 +:+ join (map render_section
                             (sections_at w cfg (calls is_http t)
                                (calls is_chat t) topics))),
       t ++ log)
    ∧ calls is_http log = length topics
    ∧ calls is_chat log
      = sections_chat_calls
          (sections_at w cfg (calls is_http t) (calls is_chat t) topics)
    ∧ calls is_smtp log = 0.
Proof.
  revert email_body t.
  induction topics as [|topic topics IH]; intros email_body t Hret.
  - exists []. cbn. by rewrite string_app_nil_r, app_nil_r.
  - cbn [for_each]. unfold bind at 1. rewrite topic_step_run.
    cbn [fetches_return sections_at] in *.
    destruct (fetch_log_calls (calls is_http t) topic 2) as (Hh & Hc & Hs).
    destruct (fetched w cfg (calls is_http t) topic 2) as [[|a arts]|e];
      [| |done].
    + set (t1 := t ++ fetch_log w cfg (calls is_http t) topic 2
                   ++ [Print ("No articles found for " +:+ topic +:+ ".")]).
      assert (Hh1 : calls is_http t1 = S (calls is_http t))
        by (unfold t1; rewrite app_assoc, calls_print, calls_app, Hh by done;
            lia).
      assert (Hc1 : calls is_chat t1 = calls is_chat t)
        by (unfold t1; rewrite app_assoc, calls_print, calls_app, Hc by done;
            lia).
      destruct (IH email_body t1) as (log & Hrun & Hh' & Hc' & Hs');
        [by rewrite Hh1|].
      rewrite Hh1, Hc1 in Hrun, Hc'.
      exists (fetch_log w cfg (calls is_http t) topic 2
              ++ [Print ("No articles found for " +:+ topic +:+ ".")]
              ++ log).
      rewrite Hrun. unfold t1.
      rewrite <- !app_assoc, !calls_app, Hh, Hc, Hs, Hh', Hc', Hs'.
      change (calls is_chat [Print ("No articles found for " +:+ topic +:+ ".")])
        with 0.
      change (calls is_http [Print ("No articles found for " +:+ topic +:+ ".")])
        with 0.
      change (calls is_smtp [Print ("No articles found for " +:+ topic +:+ ".")])
        with 0.
      repeat split; cbn [length]; lia.
    + set (t0 := t ++ fetch_log w cfg (calls is_http t) topic 2).
      destruct (articles_run (a :: arts) (email_body +:+ topic_heading topic)
                  t0) as (alog & Harun & Hah & Hac & Has).
      assert (Hc0 : calls is_chat t0 = calls is_chat t)
        by (unfold t0; rewrite calls_app, Hc; lia).
      rewrite Harun, Hc0.
      set (t1 := t0 ++ alog).
      assert (Hh1 : calls is_http t1 = S (calls is_http t))
        by (unfold t1, t0; rewrite !calls_app, Hh, Hah; lia).
      assert (Hc1 : calls is_chat t1
                    = calls is_chat t + chat_calls_for_all (a :: arts))
        by (unfold t1; rewrite calls_app, Hc0, Hac; lia).
      destruct (IH ((email_body +:+ topic_heading topic)
                    +:+ join (map render_item
                                (summarized w (calls is_chat t) (a :: arts))))
                  t1) as (log & Hrun & Hh' & Hc' & Hs'); [by rewrite Hh1|].
      rewrite Hh1, Hc1 in Hrun, Hc'.
      exists (fetch_log w cfg (calls is_http t) topic 2 ++ alog ++ log).
      rewrite Hrun. unfold t1, t0.
      rewrite <- !app_assoc, !calls_app, Hh, Hc, Hs, Hah, Hac, Has,
        Hh', Hc', Hs'.
      repeat split; try (cbn [length]; lia).
      2:{ unfold sections_chat_calls. cbn [map sum_list section_items].
          rewrite summarized_articles. unfold id. lia. }
      f_equal. f_equal. cbn [map join]. unfold render_section at 2.
      cbn [section_topic section_items].
      by rewrite !string_app_assoc.
Qed.

End Loops.

(** ** [send_email] *)

Section Send.

Variable w : world.
Variable cfg : config.

Lemma calls_smtp_event (t : trace) (call : smtp_call) :
  calls is_smtp (t ++ [Smtp call]) = S (calls is_smtp t).
Proof.
  rewrite calls_app. change (calls is_smtp [Smtp call]) with 1. lia.
Qed.

Lemma smtp_then_run {A} (script : list smtp_call) (k : M A) (t : trace) :
  smtp_then w script k t =
    match (smtp_session w (calls is_smtp t) script).2 with
    | None => k (t ++ (smtp_session w (calls is_smtp t) script).1)
    | Some e =>
        (Raised e, t ++ (smtp_session w (calls is_smtp t) script).1)
    end.
Proof.
  revert t. induction script as [|call script IH]; intros t.
  - cbn. by rewrite app_nil_r.
  - cbn [smtp_then foldr smtp_session]. unfold bind at 1, smtp at 1.
    destruct (smtp_answer w (calls is_smtp t) call) as [e|]; [done|].
    fold (smtp_then w script k). rewrite IH, calls_smtp_event.
    destruct (smtp_session w (S (calls is_smtp t)) script) as [made failure].
    cbn [fst snd]. rewrite <- app_assoc. done.
Qed.

Lemma send_email_refused (subject html_content : string) (t : trace)
    (e : exn) :
  mime_text_error w html_content = Some e →
  send_email w cfg subject html_content t =
    (Raised e,
     t ++ [Print ("Connecting to email server to send to "
                  +:+ env_str (RECEIVER_EMAIL cfg) +:+ "...")]).
Proof.
  intros Hmime. unfold send_email, bind at 1, print at 1.
  unfold bind at 1, build_message. by rewrite Hmime.
Qed.

Lemma send_email_run (subject html_content : string) (t : trace) :
  mime_text_error w html_content = None →
  send_email w cfg subject html_content t =
    (Returned tt, t ++ send_log w cfg (calls is_smtp t) subject html_content).
Proof.
  intros Hmime.
  unfold send_email, send_log, bind at 1, print at 1.
  unfold bind at 1, build_message. rewrite Hmime. unfold ret at 1.
  unfold try_except.
  change (bind (smtp w ?c1) (λ _, bind (smtp w ?c2) (λ _,
            bind (smtp w ?c3) (λ _, bind (smtp w ?c4) (λ _,
              bind (smtp w ?c5) (λ _, ?k))))))
    with (smtp_then w [c1; c2; c3; c4; c5] k).
  rewrite smtp_then_run, calls_print by done.
  fold (send_script cfg subject html_content).
  destruct (smtp_session w _ _) as [made [e|]]; cbn [fst snd send_report].
  - cbn [handle]. destruct (isinstance e SMTPAuthenticationError).
    + unfold bind, print. by rewrite <- !app_assoc.
    + rewrite isinstance_Exception. unfold print. by rewrite <- !app_assoc.
  - unfold print. by rewrite <- !app_assoc.
Qed.

(** Every event of an SMTP session is an SMTP call; a session of
    [send_script] opens exactly one connection. *)
Lemma smtp_session_events (n : nat) (script : list smtp_call) :
  Forall (λ ev, is_smtp ev = true) (smtp_session w n script).1.
Proof.
  revert n. induction script as [|call script IH]; intros n; cbn; [done|].
  destruct (smtp_answer w n call); cbn; [by repeat constructor|].
  specialize (IH (S n)). destruct (smtp_session w (S n) script).
  by constructor.
Qed.

Lemma send_script_opens_once (n : nat) (subject html_content : string) :
  calls is_smtp_open
    (smtp_session w n (send_script cfg subject html_content)).1 = 1.
Proof.
  unfold send_script. cbn [smtp_session].
  repeat (destruct (smtp_answer w _ _); cbn [fst]; [reflexivity|]).
  reflexivity.
Qed.

Lemma send_log_opens_once (n : nat) (subject html_content : string) :
  calls is_smtp_open (send_log w cfg n subject html_content) = 1.
Proof.
  unfold send_log.
  change (Print ?l :: ?a ++ ?b) with ([Print l] ++ a ++ b).
  rewrite !calls_app, send_script_opens_once. unfold send_report.
  destruct (smtp_session w n _).2 as [e|]; [|done].
  by destruct (isinstance e SMTPAuthenticationError).
Qed.

End Send.

(** ** [main] *)

Section Main.

Variable w : world.
Variable cfg : config.

(** Whatever the loop returns starts with what it was given. *)
Lemma topics_loop_extends (topics : list string) (email_body : string)
    (t : trace) (final : string) (t' : trace) :
  for_each topics (topic_step w cfg) email_body t = (Returned final, t') →
  ∃ rest, final = email_body +:+ rest.
Proof.
  revert email_body t.
  induction topics as [|topic topics IH]; intros email_body t Hrun.
  - cbn in Hrun. injection Hrun as <- <-. exists "".
    by rewrite string_app_nil_r.
  - cbn [for_each] in Hrun. unfold bind at 1 in Hrun.
    rewrite topic_step_run in Hrun.
    destruct (fetched w cfg (calls is_http t) topic 2) as [[|a arts]|e];
      [|
      |discriminate].
    + by apply IH in Hrun.
    + destruct (articles_run w (a :: arts) (email_body +:+ topic_heading topic)
                  (t ++ fetch_log w cfg (calls is_http t) topic 2))
        as (alog & Harun & _).
      rewrite Harun in Hrun. apply IH in Hrun as [rest ->].
      eexists. by rewrite !string_app_assoc.
Qed.

(** A loop that returned had every fetch return. *)
Lemma topics_loop_returned (topics : list string) (email_body : string)
    (t : trace) (final : string) (t' : trace) :
  for_each topics (topic_step w cfg) email_body t = (Returned final, t') →
  fetches_return w cfg (calls is_http t) topics = true.
Proof.
  revert email_body t.
  induction topics as [|topic topics IH]; intros email_body t Hrun; [done|].
  cbn [for_each] in Hrun. unfold bind at 1 in Hrun.
  rewrite topic_step_run in Hrun. cbn [fetches_return].
  destruct (fetch_log_calls w cfg (calls is_http t) topic 2) as (Hh & _).
  destruct (fetched w cfg (calls is_http t) topic 2) as [[|a arts]|e];
    [| |discriminate].
  - apply IH in Hrun.
    by rewrite app_assoc, calls_print, calls_app, Hh, Nat.add_1_r in Hrun.
  - destruct (articles_run w (a :: arts) (email_body +:+ topic_heading topic)
                (t ++ fetch_log w cfg (calls is_http t) topic 2))
      as (alog & Harun & Hah & _).
    rewrite Harun in Hrun. apply IH in Hrun.
    by rewrite !calls_app, Hh, Hah, Nat.add_0_r, Nat.add_1_r in Hrun.
Qed.

(** Once the loop has returned, [main] calls [send_email] on what it
    composed, and prints its last line if that returns. *)
Lemma main_for_after_loop (topics : list string) (t : trace)
    (email_body : string) (t1 : trace) :
  for_each topics (topic_step w cfg) email_header
    (t ++ [Print "Starting the AI Newsletter Generator..."])
  = (Returned email_body, t1) →
  main_for w cfg topics t =
    match send_email w cfg (email_subject w) email_body t1 with
    | (Returned _, t2) =>
        (Returned tt, t2 ++ [Print "Newsletter generation complete."])
    | (Raised e, t2) => (Raised e, t2)
    end.
Proof.
  intros Hloop. pose proof (topics_loop_extends _ _ _ _ _ Hloop) as [rest ->].
  unfold main_for, bind at 1, print at 1. unfold bind at 1. rewrite Hloop.
  fold (email_subject w). unfold bind at 1.
  remember (email_header +:+ rest) as body eqn:Hbody.
  destruct body as [|c body]; [discriminate Hbody|].
  by destruct (send_email w cfg (email_subject w) (String c body) t1)
    as [[[]|e] t2].
Qed.

Lemma main_for_sends (topics : list string) (t : trace)
    (email_body : string) (t1 : trace) :
  for_each topics (topic_step w cfg) email_header
    (t ++ [Print "Starting the AI Newsletter Generator..."])
  = (Returned email_body, t1) →
  mime_text_error w email_body = None →
  main_for w cfg topics t =
    (Returned tt,
     t1 ++ send_log w cfg (calls is_smtp t1) (email_subject w) email_body
        ++ [Print "Newsletter generation complete."]).
Proof.
  intros Hloop Hmime. rewrite (main_for_after_loop _ _ _ _ Hloop).
  rewrite send_email_run by done. by rewrite <- app_assoc.
Qed.

Lemma main_for_refused (topics : list string) (t : trace)
    (email_body : string) (t1 : trace) (e : exn) :
  for_each topics (topic_step w cfg) email_header
    (t ++ [Print "Starting the AI Newsletter Generator..."])
  = (Returned email_body, t1) →
  mime_text_error w email_body = Some e →
  main_for w cfg topics t =
    (Raised e,
     t1 ++ [Print ("Connecting to email server to send to "
                   +:+ env_str (RECEIVER_EMAIL cfg) +:+ "...")]).
Proof.
  intros Hloop Hmime. rewrite (main_for_after_loop _ _ _ _ Hloop).
  by rewrite (send_email_refused w cfg _ _ _ _ Hmime).
Qed.

End Main.

(** ** The fetcher absorbs transport failures *)

Section FetchFailure.

Variable w : world.
Variable cfg : config.

Lemma transport_failure_absorbed (answer : outcome response) :
  transport_failure answer →
  fetch_outcome answer = Returned []
  ∧ ∃ reason,
      fetch_report answer = [Print ("Error fetching news: " +:+ reason)].
Proof.
  intros [e He|r [Hlo Hhi]]; unfold fetch_outcome, fetch_report.
  - rewrite He. eauto.
  - apply Z.leb_le in Hlo. apply Z.ltb_lt in Hhi. rewrite Hlo, Hhi. cbn. eauto.
Qed.

(** C1.  When the news request fails at the transport level (the request
    raises an exception of [requests], such as a connection error, or the
    response has an error status), [fetch_articles] returns the empty list,
    having printed the failure; it raises nothing.  In [main] (which asks for
    2 articles) the loop then goes on with the remaining topics, with the
    email body unchanged and no chat call made. *)
Theorem fetch_articles_absorbs_transport_failure
    (topic : string) (num : Z) (t : trace) :
  transport_failure
    (requests_get w (calls is_http t) (news_url cfg topic num)) →
  (∃ reason,
     fetch_articles w cfg topic num t =
       (Returned [],
        t ++ [Print ("Fetching " +:+ pretty num +:+ " articles for '"
                     +:+ topic +:+ "'...");
              HttpGet (news_url cfg topic num);
              Print ("Error fetching news: " +:+ reason)]))
  ∧ (num = 2%Z →
     ∀ (rest : list string) (email_body : string),
       ∃ log,
         for_each (topic :: rest) (topic_step w cfg) email_body t
         = for_each rest (topic_step w cfg) email_body (t ++ log)
         ∧ calls is_chat log = 0).
Proof.
  intros Hfail.
  destruct (transport_failure_absorbed _ Hfail) as (Hout & reason & Hrep).
  split.
  - exists reason. rewrite fetch_articles_run. cbv zeta.
    by rewrite Hout, Hrep.
  - intros -> rest email_body.
    exists (fetch_log w cfg (calls is_http t) topic 2
            ++ [Print ("No articles found for " +:+ topic +:+ ".")]).
    split.
    + cbn [for_each]. unfold bind at 1. rewrite topic_step_run.
      unfold fetched. by rewrite Hout.
    + rewrite calls_app.
      by destruct (fetch_log_calls w cfg (calls is_http t) topic 2)
        as (_ & -> & _).
Qed.

End FetchFailure.

Lemma fetch_articles_absorbs_transport_failure_witness :
  (∃ reason,
     fetch_articles example_world example_config "B" 2 [HttpGet "first"] =
       (Returned [],
        [HttpGet "first"] ++
        [Print ("Fetching " +:+ pretty 2%Z +:+ " articles for '"
                +:+ "B" +:+ "'...");
         HttpGet (news_url example_config "B" 2);
         Print ("Error fetching news: " +:+ reason)]))
  ∧ (2%Z = 2%Z →
     ∀ (rest : list string) (email_body : string),
       ∃ log,
         for_each ("B" :: rest) (topic_step example_world example_config)
           email_body [HttpGet "first"]
         = for_each rest (topic_step example_world example_config)
             email_body ([HttpGet "first"] ++ log)
         ∧ calls is_chat log = 0).
Proof.
  apply (fetch_articles_absorbs_transport_failure example_world
           example_config "B" 2 [HttpGet "first"]).
  apply request_failed. reflexivity.
Defined.

Lemma summarize_article_empty_input_witness :
  summarize_article example_world (PStr "") []
  = (Returned "No content provided to summarize.", [])
  ∧ calls is_chat (summarize_article example_world (PStr "") []).2
    = calls is_chat [].
Proof.
  apply (summarize_article_empty_input example_world (PStr "") []).
  reflexivity.
Defined.

Lemma summarize_article_nonempty_input_witness :
  (summarize_article example_world_chat_down (PStr "c1") []).1
  = Returned "Could not summarize this article."
  ∧ ∃ summary before after,
      (summarize_article example_world (PStr "c1") []).1 = Returned summary
      ∧ "  summary of c1 " = before +:+ summary +:+ after
      ∧ all_space before = true
      ∧ all_space after = true
      ∧ starts_with_space summary = false
      ∧ ends_with_space summary = false.
Proof.
  split.
  - apply (proj1 (summarize_article_nonempty_input example_world_chat_down
                    (PStr "c1") [] eq_refl)
             (Exn Timeout "timed out")).
    reflexivity.
  - apply (proj1 (proj2 (summarize_article_nonempty_input example_world
                           (PStr "c1") [] eq_refl))
             (Choice (Some "  summary of c1 ")) [] "  summary of c1 ");
      reflexivity.
Defined.

Example summarize_article_strips :
  (summarize_article example_world (PStr "c1") []).1
  = Returned "summary of c1".
Proof. reflexivity. Qed.

Example summarize_article_chat_down :
  summarize_article example_world_chat_down (PStr "c1") []
  = (Returned "Could not summarize this article.",
     [Print "Summarizing article content with AI...";
      ChatCompletion "gpt-3.5-turbo" system_prompt (PStr "c1");
      Print "Error summarizing text: timed out"]).
Proof. reflexivity. Qed.

(** ** One article *)

Section Article.

Variable w : world.

(** C4.  The text handed to the summariser is the article's [content] when
    that field is present and not empty; otherwise it is the [description]
    field when that is present, and [None] when it is not; with neither a
    content nor a description that is not empty, it is an empty value.
    [article_step] calls [summarize_article] on that value, in the state in
    which it was entered, and uses what it returns. *)
Theorem content_to_summarize_selection (a : article) :
  (∀ c, a !! "content" = Some c → truthy c = true →
        content_to_summarize a = c)
  ∧ (truthy (dict_get a "content" PNone) = false →
     (∀ d, a !! "description" = Some d → content_to_summarize a = d)
     ∧ (a !! "description" = None → content_to_summarize a = PNone)
     ∧ (truthy (dict_get a "description" PNone) = false →
        truthy (content_to_summarize a) = false))
  ∧ (∀ (email_body : string) (t : trace),
       ∃ summary t',
         summarize_article w (content_to_summarize a) t
         = (Returned summary, t')
         ∧ article_step w email_body a t
           = (Returned (email_body
                        +:+ article_fragment (dict_get a "url" (PStr "#"))
                              (dict_get a "title" (PStr "No Title"))
                              summary), t')).
Proof.
  unfold content_to_summarize, py_or, dict_get. split; [|split].
  - intros c -> Hc. cbn. by rewrite Hc.
  - intros ->. split; [|split].
    + by intros d ->.
    + by intros ->.
    + done.
  - intros email_body t. fold (dict_get a "content" PNone).
    fold (dict_get a "description" PNone). fold py_or.
    fold (content_to_summarize a).
    do 2 eexists. split; [apply summarize_article_run|].
    by rewrite article_step_run.
Qed.

Lemma article_fragment_parts (url title : pyval) (summary : string) :
  article_fragment url title summary =
    fragment_before_link +:+ hyperlink (py_str url) (py_str title)
    +:+ fragment_after_link +:+ summary +:+ fragment_after_summary.
Proof.
  unfold article_fragment, fragment_before_link, hyperlink,
    fragment_after_link, fragment_after_summary.
  by rewrite !string_app_assoc.
Qed.

(** The fragment appended for an article is, around fixed text, a
    hyperlink followed by the summary: the link text is the value under the
    [title] key, formatted, or "No Title" when the article has no such key;
    the target is the value under the [url] key, formatted, or "#" when it
    has no such key; the summary is what [summarize_article] returned. *)
Lemma article_step_fragment (a : article) (email_body : string)
    (t : trace) :
  let link_text :=
    match a !! "title" with Some v => py_str v | None => "No Title" end in
  let target :=
    match a !! "url" with Some v => py_str v | None => "#" end in
  ∃ summary t',
    summarize_article w (content_to_summarize a) t = (Returned summary, t')
    ∧ article_step w email_body a t =
        (Returned (email_body
                   +:+ fragment_before_link
                   +:+ "<a href='" +:+ target
                   +:+ "' style='color: #0056b3; text-decoration: none;'>"
                   +:+ link_text +:+ "</a>"
                   +:+ fragment_after_link
                   +:+ summary
                   +:+ fragment_after_summary), t').
Proof.
  cbv zeta. do 2 eexists. split; [apply summarize_article_run|].
  rewrite article_step_run. unfold render_item. cbn [fst snd].
  rewrite article_fragment_parts. unfold hyperlink, dict_get.
  rewrite !string_app_assoc.
  by destruct (a !! "title"), (a !! "url").
Qed.

Lemma summarized_without_text (n : nat) (arts : list article)
    (a : article) (summary : string) :
  (a, summary) ∈ summarized w n arts →
  truthy (content_to_summarize a) = false →
  summary = no_content_sentinel.
Proof.
  revert n. induction arts as [|a' arts IH]; intros n Hin Hempty.
  - by apply elem_of_nil in Hin.
  - cbn in Hin. apply elem_of_cons in Hin as [[= -> ->]|Hin]; [|by eauto].
    unfold summary_at. by rewrite Hempty.
Qed.

Lemma render_item_expected (item : article * string) :
  render_item item = expected_fragment item.1 item.2.
Proof.
  unfold render_item, expected_fragment. rewrite article_fragment_parts.
  unfold link_target, link_text, dict_get.
  by destruct (item.1 !! "url"), (item.1 !! "title").
Qed.

Lemma summarized_fragments (n : nat) (arts : list article) :
  map render_item (summarized w n arts)
  = zip_with expected_fragment arts (map snd (summarized w n arts)).
Proof.
  revert n. induction arts as [|a arts IH]; intros n; [done|].
  cbn [summarized map zip_with snd]. by rewrite IH, render_item_expected.
Qed.

Lemma summarized_lookup (n : nat) (arts : list article) (i : nat)
    (a : article) :
  arts !! i = Some a →
  ∃ n', map snd (summarized w n arts) !! i
        = Some (summary_at w n' (content_to_summarize a)).
Proof.
  revert n i. induction arts as [|a' arts IH]; intros n i Hi; [done|].
  destruct i as [|i].
  - injection Hi as ->. by exists n.
  - cbn. by apply IH.
Qed.

(** C10.  The inner loop appends exactly one fragment per article, in the
    order of the list, and returns.  An article whose [content] and
    [description] are both absent or empty is not left out: the fragment
    appended for it has its link and, as summary, the sentinel
    "No content provided to summarize."; no chat call is made for it. *)
Theorem every_article_gets_a_fragment (arts : list article)
    (email_body : string) (t : trace) :
  (∃ summaries t',
     length summaries = length arts
     ∧ for_each arts (article_step w) email_body t
       = (Returned (email_body
                    +:+ join (zip_with expected_fragment arts summaries)),
          t')
     ∧ ∀ i a,
         arts !! i = Some a →
         truthy (dict_get a "content" PNone) = false →
         truthy (dict_get a "description" PNone) = false →
         summaries !! i = Some "No content provided to summarize.")
  ∧ (∀ a,
       truthy (dict_get a "content" PNone) = false →
       truthy (dict_get a "description" PNone) = false →
       article_step w email_body a t
       = (Returned (email_body
                    +:+ fragment_before_link
                    +:+ hyperlink (link_target a) (link_text a)
                    +:+ fragment_after_link
                    +:+ "No content provided to summarize."
                    +:+ fragment_after_summary), t)).
Proof.
  assert (Hnone : ∀ a,
            truthy (dict_get a "content" PNone) = false →
            truthy (dict_get a "description" PNone) = false →
            truthy (content_to_summarize a) = false)
    by (intros a Hc Hd; unfold content_to_summarize, py_or; by rewrite Hc).
  split.
  - destruct (articles_run w arts email_body t) as (log & Hrun & _).
    exists (map snd (summarized w (calls is_chat t) arts)), (t ++ log).
    split; [by rewrite length_map, <- (length_map fst), summarized_articles|].
    split; [by rewrite <- summarized_fragments|].
    intros i a Hi Hc Hd.
    destruct (summarized_lookup (calls is_chat t) arts i a Hi) as (n' & ->).
    unfold summary_at. by rewrite (Hnone a Hc Hd).
  - intros a Hc Hd. rewrite article_step_run.
    unfold summary_at, summarize_log. rewrite (Hnone a Hc Hd).
    rewrite render_item_expected, app_nil_r. reflexivity.
Qed.

End Article.

Lemma content_to_summarize_selection_witness :
  content_to_summarize example_article = PStr "c1"
  ∧ content_to_summarize bare_article = PNone.
Proof.
  split.
  - apply (proj1 (content_to_summarize_selection example_world
                    example_article) (PStr "c1")); reflexivity.
  - apply (proj1 (proj2 (content_to_summarize_selection example_world
                           bare_article))); reflexivity.
Defined.

Example bare_article_fragment :
  article_step example_world "" bare_article []
  = (Returned (article_fragment (PStr "#") (PStr "No Title")
                 "No content provided to summarize."), []).
Proof. reflexivity. Qed.

Lemma every_article_gets_a_fragment_witness :
  article_step example_world "" bare_article []
  = (Returned (""
               +:+ fragment_before_link
               +:+ hyperlink (link_target bare_article)
                     (link_text bare_article)
               +:+ fragment_after_link
               +:+ "No content provided to summarize."
               +:+ fragment_after_summary), []).
Proof.
  apply (proj2 (every_article_gets_a_fragment example_world
                  [bare_article; example_article] "" []) bare_article);
    reflexivity.
Defined.

(** C9.  For an article whose [title] and [url] are present and null, the
    fragment appended does not use the placeholders: [dict.get] returns the
    null, so the link text is "None" and the target is 'None'. *)
Theorem article_step_null_title_and_url :
  article_step example_world "" null_title_article []
  = (Returned (fragment_before_link
               +:+ "<a href='None' style='color: #0056b3; text-decoration: none;'>None</a>"
               +:+ fragment_after_link
               +:+ "summary of c1"
               +:+ fragment_after_summary),
     [Print "Summarizing article content with AI...";
      ChatCompletion "gpt-3.5-turbo" system_prompt (PStr "c1");
      Print "...Summary generated."]).
Proof. reflexivity. Qed.

(** ** The text of the document *)

Lemma render_document_expected (sections : list section) :
  render_document sections = expected_body sections.
Proof.
  unfold render_document, expected_body. f_equal. f_equal.
  apply map_ext. intros s. unfold render_section. f_equal. f_equal.
  apply map_ext. intros item. apply render_item_expected.
Qed.


(** *** Counting the heading tag *)

Lemma starts_with_tag_app (a b : string) :
  a ≠ "" →
  ends_safely a = true ∨ starts_safely b = true →
  starts_with heading_tag (a +:+ b) = starts_with heading_tag a.
Proof.
  intros Ha Hsafe.
  assert (Hb : ∀ c b', b = String c b' →
            (c = "h" ∨ c = "2" ∨ c = ">")%char → starts_safely b = false)
    by (intros c b' -> [-> | [-> | ->]]; reflexivity).
  destruct a as [|c1 [|c2 [|c3 [|c4 a]]]]; [done| | | |];
    rewrite ?string_app_cons; cbn [starts_with heading_tag];
    repeat case_bool_decide; subst; cbn [andb]; try done;
    change ("" +:+ b) with b.
  all: destruct Hsafe as [Hsafe|Hsafe]; [discriminate Hsafe|].
  all: destruct b as [|c b]; [done|].
  all: case_bool_decide as Hc; [|done].
  all: rewrite (Hb c b eq_refl) in Hsafe; [discriminate Hsafe|]; subst; auto.
Qed.

Lemma ends_safely_tail (c : ascii) (a : string) :
  ends_safely (String c a) = true → ends_safely a = true.
Proof. unfold ends_safely. cbn. by destruct a. Qed.

(** No occurrence of the tag lies across two texts that meet safely. *)
Lemma occurrences_app (a b : string) :
  ends_safely a = true ∨ starts_safely b = true →
  occurrences heading_tag (a +:+ b)
  = occurrences heading_tag a + occurrences heading_tag b.
Proof.
  intros Hsafe. induction a as [|c a IH]; [done|].
  rewrite string_app_cons. cbn [occurrences].
  rewrite <- string_app_cons, starts_with_tag_app by done.
  rewrite IH; [lia|].
  destruct Hsafe as [Hsafe|Hsafe]; [left; by eapply ends_safely_tail|by right].
Qed.

Ltac count_tag :=
  repeat first
    [ rewrite occurrences_app by (left; reflexivity)
    | rewrite occurrences_app by (right; reflexivity) ].

Lemma clean_occurrences (text : string) :
  clean text = true → occurrences heading_tag text = 0.
Proof. unfold clean. by intros ?%Nat.eqb_eq. Qed.

Lemma occurrences_fragment (a : article) (summary rest : string) :
  clean_item (a, summary) = true →
  occurrences heading_tag (expected_fragment a summary +:+ rest)
  = occurrences heading_tag rest.
Proof.
  unfold clean_item. cbn [fst snd].
  intros [[Hu Ht]%andb_true_iff Hs]%andb_true_iff.
  apply clean_occurrences in Hu, Ht, Hs.
  unfold expected_fragment, fragment_before_link, hyperlink,
    fragment_after_link, fragment_after_summary.
  rewrite !string_app_assoc. count_tag. rewrite Hu, Ht, Hs. reflexivity.
Qed.

Lemma occurrences_fragments (items : list (article * string))
    (rest : string) :
  forallb clean_item items = true →
  occurrences heading_tag
    (join (map (λ item, expected_fragment item.1 item.2) items) +:+ rest)
  = occurrences heading_tag rest.
Proof.
  induction items as [|[a summary] items IH]; [done|].
  cbn [forallb map join fst snd]. intros [Hitem Hitems]%andb_true_iff.
  rewrite string_app_assoc, occurrences_fragment by done. by apply IH.
Qed.

Lemma occurrences_sections (sections : list section) :
  clean_sections sections = true →
  occurrences heading_tag
    (join (map (λ s,
                  expected_heading (section_topic s)
                  +:+ join (map (λ item, expected_fragment item.1 item.2)
                              (section_items s)))
             sections))
  = length sections.
Proof.
  induction sections as [|s sections IH]; [done|].
  cbn [clean_sections forallb map join length].
  intros [[Htopic Hitems]%andb_true_iff Hrest]%andb_true_iff.
  apply clean_occurrences in Htopic.
  unfold expected_heading at 1. rewrite !string_app_assoc.
  count_tag. rewrite Htopic, occurrences_fragments by done.
  fold (clean_sections sections) in Hrest. rewrite (IH Hrest). reflexivity.
Qed.

Lemma occurrences_body (sections : list section) :
  clean_sections sections = true →
  occurrences heading_tag (expected_body sections) = length sections.
Proof.
  intros Hclean. unfold expected_body, expected_header. count_tag.
  by rewrite occurrences_sections.
Qed.

(** ** The composed document *)

Section Composition.

Variable w : world.
Variable cfg : config.

Lemma sections_topics (h n : nat) (topics : list string) :
  fetches_return w cfg h topics = true →
  map section_topic (sections_at w cfg h n topics)
  = topics_with_articles w cfg h topics.
Proof.
  revert h n. induction topics as [|topic topics IH]; intros h n Hret;
    [done|].
  cbn in *. destruct (fetched w cfg h topic 2) as [[|a arts]|e]; [| |done].
  - by apply IH.
  - cbn. f_equal. by apply IH.
Qed.

(** C5.  In a run whose fetches all return and in which no heading tag
    occurs in the topic, the title, the URL or the summary of any section,
    the heading tag "<h2>" occurs in the composed body exactly as many times
    as there are topics whose fetch returned at least one article: the body
    is the header followed by one section per such topic, opened by the
    heading of that topic.  The chat calls of the loop are those made for
    the articles of these sections.  A topic whose fetch returns no article
    leaves the body as it was and makes no chat call. *)
Theorem heading_tags_match_topics_with_articles (topics : list string)
    (t : trace) :
  fetches_return w cfg (calls is_http t) topics = true →
  clean_sections
    (sections_at w cfg (calls is_http t) (calls is_chat t) topics) = true →
  let sections :=
    sections_at w cfg (calls is_http t) (calls is_chat t) topics in
  (∃ body log,
     for_each topics (topic_step w cfg) email_header t
     = (Returned body, t ++ log)
     ∧ occurrences "<h2>" body
       = length (topics_with_articles w cfg (calls is_http t) topics)
     ∧ body = expected_body sections
     ∧ map section_topic sections
       = topics_with_articles w cfg (calls is_http t) topics
     ∧ calls is_chat log = sections_chat_calls sections)
  ∧ (∀ (topic email_body : string) (t0 : trace),
       fetched w cfg (calls is_http t0) topic 2 = Returned [] →
       ∃ log0,
         topic_step w cfg email_body topic t0 = (Returned email_body, t0 ++ log0)
         ∧ calls is_chat log0 = 0).
Proof.
  intros Hret Hclean sections.
  destruct (topics_run w cfg topics email_header t Hret)
    as (log & Hrun & _ & Hchat & _).
  pose proof (sections_topics _ (calls is_chat t) _ Hret) as Htopics.
  fold sections in Hrun, Hchat, Htopics, Hclean.
  fold (render_document sections) in Hrun.
  rewrite render_document_expected in Hrun.
  split.
  - exists (expected_body sections), log. split; [done|].
    split; [|done].
    change "<h2>" with heading_tag.
    by rewrite occurrences_body, <- Htopics, length_map.
  - intros topic email_body t0 Hnone. rewrite topic_step_run, Hnone.
    eexists. split; [done|]. rewrite calls_app.
    destruct (fetch_log_calls w cfg (calls is_http t0) topic 2)
      as (_ & -> & _).
    done.
Qed.




End Composition.

(** ** Sending, and the end of the run *)

Section SendAndFinish.

Variable w : world.
Variable cfg : config.

Lemma calls_cons (kind : event → bool) (ev : event) (t : trace) :
  calls kind (ev :: t) = (if kind ev then 1 else 0) + calls kind t.
Proof.
  unfold calls. rewrite filter_cons.
  destruct (kind ev); [by rewrite decide_True|by rewrite decide_False].
Qed.

Lemma calls_smtp_open_le (t : trace) :
  calls is_smtp_open t ≤ calls is_smtp t.
Proof.
  induction t as [|ev t IH]; [done|]. rewrite !calls_cons.
  destruct ev as [| | |[]]; cbn; lia.
Qed.

(** The lines of [send_log]: the opening line and the report. *)
Lemma send_log_prints (n : nat) (subject html_content line : string) :
  Print line ∈ send_log w cfg n subject html_content →
  line = ("Connecting to email server to send to "
          +:+ env_str (RECEIVER_EMAIL cfg) +:+ "...")
  ∨ Print line
    ∈ send_report (smtp_session w n (send_script cfg subject html_content)).2.
Proof.
  unfold send_log. rewrite elem_of_cons, elem_of_app.
  intros [Heq|[Hin|Hin]]; [injection Heq as ->; by left| |by right].
  pose proof (smtp_session_events w n (send_script cfg subject html_content))
    as Hall.
  rewrite Forall_forall in Hall. by apply Hall in Hin.
Qed.

(** C6.  When the message can be built, [send_email] returns whichever SMTP
    call fails and with whichever exception: nothing is raised to its
    caller.  When the failure is an authentication error the two
    authentication lines are printed and no "Error sending email" line is;
    for any other failure the line "Error sending email: ..." with the text
    of the exception is printed and the authentication lines are not.  When
    the body is the one the loop of [main] composed, [main] returns after the
    send, its last line printed. *)
Theorem send_email_absorbs_smtp_failures (subject html_content : string)
    (t : trace) :
  mime_text_error w html_content = None →
  let failure :=
    (smtp_session w (calls is_smtp t)
       (send_script cfg subject html_content)).2 in
  (∃ log,
     send_email w cfg subject html_content t = (Returned tt, t ++ log)
     ∧ (∀ e, failure = Some e →
             isinstance e SMTPAuthenticationError = true →
             Print "---!!! AUTHENTICATION FAILED !!!---" ∈ log
             ∧ Print "Error: SMTP Authentication failed. Check your SENDER_EMAIL and SENDER_PASSWORD (App Password) in the .env file." ∈ log
             ∧ ∀ reason, Print ("Error sending email: " +:+ reason) ∉ log)
     ∧ (∀ e, failure = Some e →
             isinstance e SMTPAuthenticationError = false →
             Print ("Error sending email: " +:+ exn_str e) ∈ log
             ∧ (Print "---!!! AUTHENTICATION FAILED !!!---" ∉ log)
             ∧ (Print "Error: SMTP Authentication failed. Check your SENDER_EMAIL and SENDER_PASSWORD (App Password) in the .env file." ∉ log)))
  ∧ (∀ (topics : list string) (t0 t1 : trace),
       for_each topics (topic_step w cfg) email_header
         (t0 ++ [Print "Starting the AI Newsletter Generator..."])
       = (Returned html_content, t1) →
       ∃ log,
         main_for w cfg topics t0
         = (Returned tt,
            t1 ++ log ++ [Print "Newsletter generation complete."])).
Proof.
  intros Hmime failure. split.
  - exists (send_log w cfg (calls is_smtp t) subject html_content).
    split; [by apply send_email_run|].
    split; intros e Hfail Hclass.
    + assert (Hrep : send_report failure
                     = [Print auth_failed_banner; Print auth_failed_advice])
        by (unfold send_report; by rewrite Hfail, Hclass).
      repeat split.
      * unfold send_log. fold failure. rewrite Hrep.
        apply elem_of_cons. right. apply elem_of_app. right. by left.
      * unfold send_log. fold failure. rewrite Hrep.
        apply elem_of_cons. right. apply elem_of_app. right. right. by left.
      * intros reason Hin. apply send_log_prints in Hin as [Heq|Hin].
        -- cbv [String.append] in Heq. discriminate Heq.
        -- fold failure in Hin. rewrite Hrep in Hin.
           rewrite !elem_of_cons in Hin.
           destruct Hin as [Heq|[Heq|Hin]];
             [| |by apply elem_of_nil in Hin];
             injection Heq as Heq;
             cbv [String.append auth_failed_banner auth_failed_advice] in Heq;
             discriminate Heq.
    + assert (Hrep : send_report failure
                     = [Print ("Error sending email: " +:+ exn_str e)])
        by (unfold send_report; by rewrite Hfail, Hclass).
      repeat split.
      * unfold send_log. fold failure. rewrite Hrep.
        apply elem_of_cons. right. apply elem_of_app. right. by left.
      * intros Hin. apply send_log_prints in Hin as [Heq|Hin].
        -- cbv [String.append] in Heq. discriminate Heq.
        -- fold failure in Hin. rewrite Hrep in Hin.
           apply list_elem_of_singleton in Hin. injection Hin as Heq.
           cbv [String.append] in Heq. discriminate Heq.
      * intros Hin. apply send_log_prints in Hin as [Heq|Hin].
        -- cbv [String.append] in Heq. discriminate Heq.
        -- fold failure in Hin. rewrite Hrep in Hin.
           apply list_elem_of_singleton in Hin. injection Hin as Heq.
           cbv [String.append] in Heq. discriminate Heq.
  - intros topics t0 t1 Hloop.
    eexists. by apply main_for_sends.
Qed.

(** C7.  Whenever the loop of [main] has returned, the body it composed
    starts with the header, so it is not empty, and no SMTP connection was
    opened during the loop; [main] then calls [send_email] on that body,
    never taking the other branch.  When the message can be built, [main]
    returns and the run has opened exactly one SMTP connection; when it
    cannot, the exception of [MIMEText] ends the run after the first line of
    [send_email].  The loop returns when the fetches all return, also when no
    topic had an article: the body is then the header alone. *)
Theorem main_sends_once_after_loop (topics : list string) (t : trace) :
  (∀ (email_body : string) (t1 : trace),
     for_each topics (topic_step w cfg) email_header
       (t ++ [Print "Starting the AI Newsletter Generator..."])
     = (Returned email_body, t1) →
     (∃ rest, email_body = expected_header +:+ rest)
     ∧ email_body ≠ ""
     ∧ calls is_smtp_open t1 = calls is_smtp_open t
     ∧ match mime_text_error w email_body with
       | None =>
           main_for w cfg topics t
           = (Returned tt,
              t1 ++ send_log w cfg (calls is_smtp t1) (email_subject w)
                      email_body
                 ++ [Print "Newsletter generation complete."])
           ∧ calls is_smtp_open (main_for w cfg topics t).2
             = calls is_smtp_open t + 1
       | Some e =>
           main_for w cfg topics t
           = (Raised e,
              t1 ++ [Print ("Connecting to email server to send to "
                            +:+ env_str (RECEIVER_EMAIL cfg) +:+ "...")])
       end)
  ∧ (fetches_return w cfg (calls is_http t) topics = true →
     ∃ email_body t1,
       for_each topics (topic_step w cfg) email_header
         (t ++ [Print "Starting the AI Newsletter Generator..."])
       = (Returned email_body, t1)
       ∧ (topics_with_articles w cfg (calls is_http t) topics = [] →
          email_body = expected_header)).
Proof.
  set (t0 := t ++ [Print "Starting the AI Newsletter Generator..."]).
  assert (Hh0 : calls is_http t0 = calls is_http t)
    by (unfold t0; by rewrite calls_print).
  assert (Hloop : fetches_return w cfg (calls is_http t) topics = true →
            ∃ log,
              for_each topics (topic_step w cfg) email_header t0
              = (Returned (email_header
                           +:+ join (map render_section
                                       (sections_at w cfg (calls is_http t)
                                          (calls is_chat t0) topics))),
                 t0 ++ log)
              ∧ calls is_smtp log = 0).
  { intros Hret.
    destruct (topics_run w cfg topics email_header t0) as
      (log & Hrun & _ & _ & Hsmtp); [by rewrite Hh0|].
    rewrite Hh0 in Hrun. by exists log. }
  split.
  - intros email_body t1 Hrun.
    pose proof (topics_loop_returned w cfg _ _ _ _ _ Hrun) as Hret.
    rewrite Hh0 in Hret. destruct (Hloop Hret) as (log & Hrun' & Hsmtp).
    rewrite Hrun' in Hrun. injection Hrun as <- <-.
    pose proof (calls_smtp_open_le log) as Hle. rewrite Hsmtp in Hle.
    assert (Hopen : calls is_smtp_open (t0 ++ log) = calls is_smtp_open t).
    { unfold t0. rewrite !calls_app.
      change (calls is_smtp_open
                [Print "Starting the AI Newsletter Generator..."]) with 0.
      lia. }
    split; [by eexists|].
    split; [by cbv [email_header String.append]|].
    split; [done|].
    destruct (mime_text_error w _) as [e|] eqn:Hmime.
    + exact (main_for_refused w cfg topics t _ _ e Hrun' Hmime).
    + rewrite (main_for_sends w cfg topics t _ _ Hrun' Hmime).
      split; [done|]. cbn [snd].
      rewrite (calls_app _ (t0 ++ log)), Hopen, calls_app,
        send_log_opens_once.
      change (calls is_smtp_open [Print "Newsletter generation complete."])
        with 0.
      lia.
  - intros Hret. destruct (Hloop Hret) as (log & Hrun & _).
    eexists _, _. split; [exact Hrun|].
    intros Hnone.
    rewrite <- (sections_topics w cfg _ (calls is_chat t0) _ Hret) in Hnone.
    apply map_eq_nil in Hnone. rewrite Hnone. cbn [map join].
    by rewrite string_app_nil_r.
Qed.

End SendAndFinish.

(** ** The small run *)

Lemma heading_tags_match_topics_with_articles_witness :
  ∃ body log,
    for_each ["A"; "B"] (topic_step example_world example_config)
      email_header []
    = (Returned body, [] ++ log)
    ∧ occurrences "<h2>" body = 1
    ∧ body
      = expected_body (sections_at example_world example_config 0 0 ["A"; "B"])
    ∧ map section_topic
        (sections_at example_world example_config 0 0 ["A"; "B"])
      = ["A"].
Proof.
  destruct (heading_tags_match_topics_with_articles example_world
              example_config ["A"; "B"] [] eq_refl eq_refl)
    as [(body & log & Hrun & Hcount & Hbody & Htopics & _) _].
  exists body, log. exact (conj Hrun (conj Hcount (conj Hbody Htopics))).
Defined.

(** A title that holds the markup of a heading: two heading tags in the
    body for one topic with articles, and a heading naming topic "B", whose
    fetch returned nothing. *)
Lemma heading_tags_counterexample :
  ∃ body t',
    for_each ["A"; "B"] (topic_step injected_world example_config)
      email_header []
    = (Returned body, t')
    ∧ occurrences "<h2>" body = 2
    ∧ length (topics_with_articles injected_world example_config 0 ["A"; "B"])
      = 1
    ∧ occurrences "<h2>" body
      ≠ length (topics_with_articles injected_world example_config 0
                  ["A"; "B"])
    ∧ occurrences "<h2>Today's News on: B</h2>" body = 1
    ∧ fetched injected_world example_config 1 "B" 2 = Returned [].
Proof.
  eexists _, _. split; [reflexivity|]. by repeat split.
Qed.


Lemma send_email_absorbs_smtp_failures_witness :
  ∃ log,
    send_email example_world example_config "subject" "<p>body</p>" []
    = (Returned tt, [] ++ log)
    ∧ Print "---!!! AUTHENTICATION FAILED !!!---" ∈ log
    ∧ Print ("Error sending email: " +:+ "bad credentials") ∉ log.
Proof.
  destruct (send_email_absorbs_smtp_failures example_world example_config
              "subject" "<p>body</p>" [] eq_refl)
    as [(log & Hrun & Hauth & _) _].
  destruct (Hauth (Exn SMTPAuthenticationError "bad credentials")
              eq_refl eq_refl) as (Hbanner & _ & Hnone).
  exists log. exact (conj Hrun (conj Hbanner (Hnone "bad credentials"))).
Defined.

(** The message cannot be built: the exception leaves [send_email]. *)
Lemma send_email_counterexample :
  send_email refusing_world example_config "subject" "<p>body</p>" []
  = (Raised (Exn UnicodeEncodeError
               "'utf-8' codec can't encode character: surrogates not allowed"),
     [Print "Connecting to email server to send to to@example.org..."]).
Proof. reflexivity. Qed.

Lemma main_sends_once_after_loop_witness :
  ∃ email_body t1,
    for_each ["A"; "B"] (topic_step example_world example_config) email_header
      ([] ++ [Print "Starting the AI Newsletter Generator..."])
    = (Returned email_body, t1)
    ∧ email_body ≠ ""
    ∧ main_for example_world example_config ["A"; "B"] []
      = (Returned tt,
         t1 ++ send_log example_world example_config (calls is_smtp t1)
                 (email_subject example_world) email_body
            ++ [Print "Newsletter generation complete."])
    ∧ calls is_smtp_open
        (main_for example_world example_config ["A"; "B"] []).2
      = calls is_smtp_open [] + 1.
Proof.
  destruct (main_sends_once_after_loop example_world example_config
              ["A"; "B"] []) as [Hsend Hloop].
  destruct (Hloop eq_refl) as (email_body & t1 & Hrun & _).
  destruct (Hsend email_body t1 Hrun) as (_ & Hfull & _ & Hmain).
  change (mime_text_error example_world email_body) with (@None exn) in Hmain.
  destruct Hmain as [Hmain Hopen].
  exists email_body, t1. exact (conj Hrun (conj Hfull (conj Hmain Hopen))).
Defined.

(** A fetch raises: the run ends without any call to [send_email]. *)
Lemma main_counterexample :
  main_for example_world_bad_json example_config ["A"; "B"] []
  = (Raised (Exn ValueError "Expecting value"),
     [Print "Starting the AI Newsletter Generator...";
      Print "Fetching 2 articles for 'A'...";
      HttpGet "https://newsapi.org/v2/everything?q=A&sortBy=publishedAt&pageSize=2&apiKey=key"])
  ∧ calls is_smtp_open
      (main_for example_world_bad_json example_config ["A"; "B"] []).2 = 0.
Proof. split; reflexivity. Qed.

(** The scenario of the design: topic "A" has one article, topic "B" none. *)
Example scenario_body :
  (for_each ["A"; "B"] (topic_step (mock_world example_config) example_config)
     email_header []).1
  = Returned (email_header +:+ topic_heading "A"
              +:+ article_fragment (PStr "u1") (PStr "T1") "summary of c1").
Proof. reflexivity. Qed.

Example scenario_run :
  main_for (mock_world example_config) example_config ["A"; "B"] []
  = (Returned tt,
     [Print "Starting the AI Newsletter Generator...";
      Print "Fetching 2 articles for 'A'...";
      HttpGet "https://newsapi.org/v2/everything?q=A&sortBy=publishedAt&pageSize=2&apiKey=key";
      Print "...Articles fetched successfully.";
      Print "Summarizing article content with AI...";
      ChatCompletion "gpt-3.5-turbo" system_prompt (PStr "c1");
      Print "...Summary generated.";
      Print "Fetching 2 articles for 'B'...";
      HttpGet "https://newsapi.org/v2/everything?q=B&sortBy=publishedAt&pageSize=2&apiKey=key";
      Print "...Articles fetched successfully.";
      Print "No articles found for B.";
      Print "Connecting to email server to send to to@example.org...";
      Smtp (SMTP_open "smtp.gmail.com" 587);
      Smtp SMTP_starttls;
      Smtp (SMTP_login (Some "from@example.org") (Some "app-password"));
      Smtp (SMTP_sendmail (Some "from@example.org") (Some "to@example.org")
              {| msg_From := Some "from@example.org";
                 msg_To := Some "to@example.org";
                 msg_Subject := "Your Daily AI News Briefing - November 04, 2026";
                 msg_html :=
                   email_header +:+ topic_heading "A"
                   +:+ article_fragment (PStr "u1") (PStr "T1")
                         "summary of c1" |});
      Smtp SMTP_quit;
      Print "Email sent successfully!";
      Print "Newsletter generation complete."]).
Proof. reflexivity. Qed.

(** With every request failing, the header alone is sent. *)
Example all_fetches_fail :
  (for_each topics_of_interest
     (topic_step example_world_chat_down example_config) email_header
     [HttpGet "earlier"]).1
  = Returned email_header.
Proof. reflexivity. Qed.

(** * Further properties of the script *)

(** ** Reading a trace *)

Lemma http_urls_app (t1 t2 : trace) :
  http_urls (t1 ++ t2) = http_urls t1 ++ http_urls t2.
Proof. apply omap_app. Qed.

Lemma chat_contents_app (t1 t2 : trace) :
  chat_contents (t1 ++ t2) = chat_contents t1 ++ chat_contents t2.
Proof. apply omap_app. Qed.

Lemma smtp_calls_of_app (t1 t2 : trace) :
  smtp_calls_of (t1 ++ t2) = smtp_calls_of t1 ++ smtp_calls_of t2.
Proof. apply omap_app. Qed.

(** ** More on [fetch_articles] *)

Section FetchMore.

Variable w : world.
Variable cfg : config.

Lemma not_error_status (r : response) :
  ¬ (400 ≤ status_code r < 600)%Z →
  ((400 <=? status_code r) && (status_code r <? 600))%Z = false.
Proof.
  intros Hok. apply andb_false_iff.
  destruct (Z.leb_spec 400 (status_code r)); [|by left].
  destruct (Z.ltb_spec (status_code r) 600); [lia|by right].
Qed.

(** X1.  When the request returns a response whose status is not an error
    status and whose body decodes, [fetch_articles] returns the list under
    the [articles] key of the body, or the empty list when the body has no
    such key, and prints the success line. *)
Theorem fetch_articles_success (topic : string) (num : Z) (t : trace)
    (r : response) (data : news_body) :
  requests_get w (calls is_http t) (news_url cfg topic num) = Returned r →
  ¬ (400 ≤ status_code r < 600)%Z →
  response_json r = Returned data →
  fetch_articles w cfg topic num t =
    (Returned (match body_articles data with
               | Some arts => arts
               | None => []
               end),
     t ++ [Print ("Fetching " +:+ pretty num +:+ " articles for '"
                  +:+ topic +:+ "'...");
           HttpGet (news_url cfg topic num);
           Print "...Articles fetched successfully."]).
Proof.
  intros Hget Hok Hjson. rewrite fetch_articles_run. cbv zeta.
  rewrite Hget. unfold fetch_outcome, fetch_report.
  rewrite (not_error_status r Hok), Hjson.
  by destruct (body_articles data).
Qed.

(** X2.  An exception raised by the request itself, or by the decoding of
    the body of a response without error status, is absorbed exactly when it
    is an instance of [RequestException]: [fetch_articles] then prints it and
    returns the empty list.  Any other exception is raised to the caller as
    it is, and no line is printed for it. *)
Theorem fetch_articles_exception (topic : string) (num : Z) (t : trace)
    (e : exn) :
  requests_get w (calls is_http t) (news_url cfg topic num) = Raised e
  ∨ (∃ r, requests_get w (calls is_http t) (news_url cfg topic num)
          = Returned r
          ∧ ¬ (400 ≤ status_code r < 600)%Z
          ∧ response_json r = Raised e) →
  fetch_articles w cfg topic num t =
    if isinstance e RequestException
    then (Returned [],
          t ++ [Print ("Fetching " +:+ pretty num +:+ " articles for '"
                       +:+ topic +:+ "'...");
                HttpGet (news_url cfg topic num);
                Print ("Error fetching news: " +:+ exn_str e)])
    else (Raised e,
          t ++ [Print ("Fetching " +:+ pretty num +:+ " articles for '"
                       +:+ topic +:+ "'...");
                HttpGet (news_url cfg topic num)]).
Proof.
  intros [Hget|(r & Hget & Hok & Hjson)]; rewrite fetch_articles_run;
    cbv zeta; rewrite Hget; unfold fetch_outcome, fetch_report.
  - by destruct (isinstance e RequestException).
  - rewrite (not_error_status r Hok), Hjson.
    by destruct (isinstance e RequestException).
Qed.

Lemma fetch_log_events (h : nat) (topic : string) (num : Z) :
  http_urls (fetch_log w cfg h topic num) = [news_url cfg topic num]
  ∧ chat_contents (fetch_log w cfg h topic num) = []
  ∧ smtp_calls_of (fetch_log w cfg h topic num) = [].
Proof.
  unfold fetch_log, fetch_report.
  destruct (requests_get w h _) as [r|e].
  - destruct ((400 <=? status_code r)%Z && (status_code r <? 600)%Z);
      [done|].
    destruct (response_json r) as [data|e]; [done|].
    by destruct (isinstance e RequestException).
  - by destruct (isinstance e RequestException).
Qed.

(** X3.  Whatever the answer, one call of [fetch_articles] makes exactly one
    request, to the URL built from the topic, the count and the API key; it
    never asks again, and makes no chat call and no SMTP call. *)
Theorem fetch_articles_one_request (topic : string) (num : Z) (t : trace) :
  ∃ log,
    (fetch_articles w cfg topic num t).2 = t ++ log
    ∧ http_urls log
      = ["https://newsapi.org/v2/everything?q=" +:+ topic
         +:+ "&sortBy=publishedAt&pageSize=" +:+ pretty num
         +:+ "&apiKey=" +:+ env_str (NEWS_API_KEY cfg)]
    ∧ chat_contents log = []
    ∧ smtp_calls_of log = [].
Proof.
  exists (fetch_log w cfg (calls is_http t) topic num).
  rewrite fetch_articles_fetched.
  destruct (fetch_log_events (calls is_http t) topic num) as (-> & -> & ->).
  repeat split.
Qed.

End FetchMore.

Lemma fetch_articles_success_witness :
  fetch_articles example_world example_config "A" 2 [] =
    (Returned [example_article],
     [] ++ [Print ("Fetching " +:+ pretty 2%Z +:+ " articles for '"
                   +:+ "A" +:+ "'...");
            HttpGet (news_url example_config "A" 2);
            Print "...Articles fetched successfully."]).
Proof.
  apply (fetch_articles_success example_world example_config "A" 2 []
           {| status_code := 200; http_error_text := "";
              response_json :=
                Returned (NewsBody (Some [example_article])) |}
           (NewsBody (Some [example_article]))).
  - reflexivity.
  - cbn. lia.
  - reflexivity.
Defined.

Lemma fetch_articles_exception_witness :
  fetch_articles example_world_bad_json example_config "A" 2 [] =
    (Raised (Exn ValueError "Expecting value"),
     [] ++ [Print ("Fetching " +:+ pretty 2%Z +:+ " articles for '"
                   +:+ "A" +:+ "'...");
            HttpGet (news_url example_config "A" 2)]).
Proof.
  apply (fetch_articles_exception example_world_bad_json example_config
           "A" 2 [] (Exn ValueError "Expecting value")).
  right. eexists. split; [reflexivity|]. split; [cbn; lia|reflexivity].
Defined.

(** ** More on [summarize_article] *)

Section SummarizeMore.

Variable w : world.

(** X4.  When the chat API answers a text that is not empty with a
    completion that has no choice, or whose first choice has no text,
    [summarize_article] prints the error met while reading the answer and
    returns the sentinel "Could not summarize this article." *)
Theorem summarize_article_malformed_completion (content : pyval)
    (t : trace) (r : completion) :
  truthy content = true →
  chat_completions_create w (calls is_chat t) content = Returned r →
  (choices r = []
   ∨ ∃ c rest, choices r = c :: rest ∧ message_content c = None) →
  ∃ reason,
    summarize_article w content t =
      (Returned "Could not summarize this article.",
       t ++ [Print "Summarizing article content with AI...";
             ChatCompletion "gpt-3.5-turbo" system_prompt content;
             Print "...Summary generated.";
             Print ("Error summarizing text: " +:+ reason)]).
Proof.
  intros Hfull Hanswer Hbad. rewrite summarize_article_run.
  unfold summary_at, summarize_log. rewrite Hfull, Hanswer.
  unfold summary_outcome, summary_report.
  destruct Hbad as [->|(c & rest & -> & ->)]; eauto.
Qed.

Lemma summarize_log_events (n : nat) (content : pyval) :
  chat_contents (summarize_log w n content)
  = (if truthy content then [content] else [])
  ∧ http_urls (summarize_log w n content) = []
  ∧ smtp_calls_of (summarize_log w n content) = [].
Proof.
  unfold summarize_log, summary_report.
  destruct (truthy content); [|done].
  destruct (chat_completions_create w n content) as [[chs]|e]; [|done].
  by destruct chs as [|[[s|]] chs].
Qed.

Lemma summarize_log_chat (n : nat) (content : pyval) :
  Forall (λ ev, match ev with
                | ChatCompletion model prompt c =>
                    model = "gpt-3.5-turbo" ∧ prompt = system_prompt
                    ∧ c = content
                | _ => True
                end) (summarize_log w n content).
Proof.
  unfold summarize_log, summary_report.
  destruct (truthy content); [|done].
  destruct (chat_completions_create w n content) as [[chs]|e];
    [|by repeat constructor].
  destruct chs as [|[[s|]] chs]; by repeat constructor.
Qed.

(** X5.  [summarize_article] always returns.  It makes one chat call, with
    the model "gpt-3.5-turbo", the fixed instruction and the text as user
    content, when the text is not empty, and none when it is; it makes no
    request and no SMTP call. *)
Theorem summarize_article_one_call (content : pyval) (t : trace) :
  ∃ summary log,
    summarize_article w content t = (Returned summary, t ++ log)
    ∧ chat_contents log = (if truthy content then [content] else [])
    ∧ http_urls log = []
    ∧ smtp_calls_of log = []
    ∧ ∀ model prompt c,
        ChatCompletion model prompt c ∈ log →
        model = "gpt-3.5-turbo"
        ∧ prompt = "You are a newsletter assistant. Summarize the following news article content into one concise paragraph (3-4 sentences)."
        ∧ c = content.
Proof.
  eexists _, _. split; [apply summarize_article_run|].
  destruct (summarize_log_events (calls is_chat t) content)
    as (-> & -> & ->).
  do 3 (split; [done|]). intros model prompt c Hin.
  pose proof (summarize_log_chat (calls is_chat t) content) as Hall.
  rewrite Forall_forall in Hall. by apply Hall in Hin.
Qed.

(** X6.  The summary returned for a completion whose first choice carries a
    text is that text without the white space at its two ends: the text is
    the summary between two runs of white space, and the summary neither
    starts nor ends with white space. *)
Theorem summarize_article_trims (content : pyval) (t : trace)
    (c : choice) (rest : list choice) (s : string) :
  truthy content = true →
  chat_completions_create w (calls is_chat t) content
  = Returned (Completion (c :: rest)) →
  message_content c = Some s →
  ∃ summary before after,
    (summarize_article w content t).1 = Returned summary
    ∧ s = before +:+ summary +:+ after
    ∧ all_space before = true
    ∧ all_space after = true
    ∧ starts_with_space summary = false
    ∧ ends_with_space summary = false.
Proof.
  intros Hfull Hanswer Hs. rewrite summarize_article_run. cbn [fst].
  unfold summary_at. rewrite Hfull, Hanswer. cbn. rewrite Hs.
  destruct (lstrip_split s) as (before & Hleft & Hbefore).
  destruct (rstrip_split (lstrip s)) as (after & Hright & Hafter).
  exists (strip s), before, after. split; [done|].
  split; [unfold strip; by rewrite <- Hright|].
  repeat split; try done.
  - apply rstrip_start, lstrip_start.
  - apply rstrip_end.
Qed.


End SummarizeMore.

Lemma summarize_article_malformed_completion_witness :
  ∃ reason,
    summarize_article example_world_no_choice (PStr "c1") [] =
      (Returned "Could not summarize this article.",
       [] ++ [Print "Summarizing article content with AI...";
              ChatCompletion "gpt-3.5-turbo" system_prompt (PStr "c1");
              Print "...Summary generated.";
              Print ("Error summarizing text: " +:+ reason)]).
Proof.
  apply (summarize_article_malformed_completion example_world_no_choice
           (PStr "c1") [] (Completion [])); [reflexivity..|].
  by left.
Defined.

Lemma summarize_article_trims_witness :
  ∃ summary before after,
    (summarize_article example_world (PStr "c1") []).1 = Returned summary
    ∧ "  summary of c1 " = before +:+ summary +:+ after
    ∧ all_space before = true
    ∧ all_space after = true
    ∧ starts_with_space summary = false
    ∧ ends_with_space summary = false.
Proof.
  apply (summarize_article_trims example_world (PStr "c1") []
           (Choice (Some "  summary of c1 ")) [] "  summary of c1 ");
    reflexivity.
Defined.


(** ** More on [send_email] *)

Section SendMore.

Variable w : world.
Variable cfg : config.

Lemma smtp_session_all_ok (n : nat) (script : list smtp_call) :
  (∀ i call, script !! i = Some call → smtp_answer w (n + i) call = None) →
  smtp_session w n script = (map Smtp script, None).
Proof.
  revert n. induction script as [|call script IH]; intros n Hok; [done|].
  cbn [smtp_session map].
  rewrite <- (Nat.add_0_r n) at 1. rewrite (Hok 0 call eq_refl).
  rewrite IH; [done|].
  intros i call' Hi. rewrite Nat.add_succ_comm. by apply Hok.
Qed.

Lemma smtp_session_fails (n : nat) (script : list smtp_call) (i : nat)
    (call : smtp_call) (e : exn) :
  script !! i = Some call →
  (∀ j call', j < i → script !! j = Some call' →
              smtp_answer w (n + j) call' = None) →
  smtp_answer w (n + i) call = Some e →
  smtp_session w n script = (map Smtp (take (S i) script), Some e).
Proof.
  revert n i. induction script as [|call0 script IH]; intros n i Hi Hbefore He;
    [done|].
  cbn [smtp_session]. destruct i as [|i].
  - injection Hi as ->. rewrite Nat.add_0_r in He. by rewrite He.
  - rewrite <- (Nat.add_0_r n) at 1.
    rewrite (Hbefore 0 call0); [|lia|done].
    rewrite (IH (S n) i Hi); [done| |by rewrite Nat.add_succ_comm].
    intros j call' Hj Hcall'. rewrite Nat.add_succ_comm.
    apply Hbefore; [lia|done].
Qed.

(** X8.  When the message can be built and none of its SMTP calls fails,
    [send_email] opens the session
    to smtp.gmail.com on port 587, upgrades it to TLS, logs in with the
    sender address and password, hands over one message from the sender to
    the receiver (with the subject and the HTML body it was given), closes
    the session, prints the success line and returns. *)
Theorem send_email_success (subject html_content : string) (t : trace) :
  mime_text_error w html_content = None →
  (∀ i call, send_script cfg subject html_content !! i = Some call →
             smtp_answer w (calls is_smtp t + i) call = None) →
  send_email w cfg subject html_content t =
    (Returned tt,
     t ++ [Print ("Connecting to email server to send to "
                  +:+ env_str (RECEIVER_EMAIL cfg) +:+ "...");
           Smtp (SMTP_open "smtp.gmail.com" 587);
           Smtp SMTP_starttls;
           Smtp (SMTP_login (SENDER_EMAIL cfg) (SENDER_PASSWORD cfg));
           Smtp (SMTP_sendmail (SENDER_EMAIL cfg) (RECEIVER_EMAIL cfg)
                   {| msg_From := SENDER_EMAIL cfg;
                      msg_To := RECEIVER_EMAIL cfg;
                      msg_Subject := subject;
                      msg_html := html_content |});
           Smtp SMTP_quit;
           Print "Email sent successfully!"]).
Proof.
  intros Hmime Hok. rewrite send_email_run by done. unfold send_log.
  by rewrite (smtp_session_all_ok _ _ Hok).
Qed.

(** X9.  When the message can be built, [send_email] stops at the first
    SMTP call that fails: the calls
    before it and the failing call are the only ones made (the message is
    not handed over after a failed login, and the session is not closed
    after any failure), the success line is not printed, and the failure is
    reported by the authentication lines or by the generic line. *)
Theorem send_email_stops_at_failure (subject html_content : string)
    (t : trace) (i : nat) (call : smtp_call) (e : exn) :
  mime_text_error w html_content = None →
  send_script cfg subject html_content !! i = Some call →
  (∀ j call', j < i →
     send_script cfg subject html_content !! j = Some call' →
     smtp_answer w (calls is_smtp t + j) call' = None) →
  smtp_answer w (calls is_smtp t + i) call = Some e →
  send_email w cfg subject html_content t =
    (Returned tt,
     t ++ [Print ("Connecting to email server to send to "
                  +:+ env_str (RECEIVER_EMAIL cfg) +:+ "...")]
       ++ map Smtp (take (S i) (send_script cfg subject html_content))
       ++ (if isinstance e SMTPAuthenticationError
           then [Print "---!!! AUTHENTICATION FAILED !!!---";
                 Print "Error: SMTP Authentication failed. Check your SENDER_EMAIL and SENDER_PASSWORD (App Password) in the .env file."]
           else [Print ("Error sending email: " +:+ exn_str e)])).
Proof.
  intros Hmime Hi Hbefore He. rewrite send_email_run by done.
  unfold send_log.
  by rewrite (smtp_session_fails _ _ _ _ _ Hi Hbefore He).
Qed.

End SendMore.

Lemma send_email_success_witness :
  send_email (mock_world example_config) example_config "subject"
    "<p>body</p>" [] =
    (Returned tt,
     [] ++ [Print ("Connecting to email server to send to "
                   +:+ env_str (RECEIVER_EMAIL example_config) +:+ "...");
            Smtp (SMTP_open "smtp.gmail.com" 587);
            Smtp SMTP_starttls;
            Smtp (SMTP_login (SENDER_EMAIL example_config)
                    (SENDER_PASSWORD example_config));
            Smtp (SMTP_sendmail (SENDER_EMAIL example_config)
                    (RECEIVER_EMAIL example_config)
                    {| msg_From := SENDER_EMAIL example_config;
                       msg_To := RECEIVER_EMAIL example_config;
                       msg_Subject := "subject";
                       msg_html := "<p>body</p>" |});
            Smtp SMTP_quit;
            Print "Email sent successfully!"]).
Proof.
  apply (send_email_success (mock_world example_config) example_config
           "subject" "<p>body</p>" []).
  - reflexivity.
  - reflexivity.
Defined.

Lemma send_email_stops_at_failure_witness :
  send_email example_world example_config "subject" "<p>body</p>" [] =
    (Returned tt,
     [] ++ [Print ("Connecting to email server to send to "
                   +:+ env_str (RECEIVER_EMAIL example_config) +:+ "...")]
        ++ map Smtp (take 3 (send_script example_config "subject"
                               "<p>body</p>"))
        ++ (if isinstance (Exn SMTPAuthenticationError "bad credentials")
                 SMTPAuthenticationError
            then [Print "---!!! AUTHENTICATION FAILED !!!---";
                  Print "Error: SMTP Authentication failed. Check your SENDER_EMAIL and SENDER_PASSWORD (App Password) in the .env file."]
            else [Print ("Error sending email: "
                         +:+ exn_str (Exn SMTPAuthenticationError
                                        "bad credentials"))])).
Proof.
  apply (send_email_stops_at_failure example_world example_config
           "subject" "<p>body</p>" [] 2
           (SMTP_login (SENDER_EMAIL example_config)
              (SENDER_PASSWORD example_config))
           (Exn SMTPAuthenticationError "bad credentials")).
  - reflexivity.
  - reflexivity.
  - intros j call' Hj Hcall'.
    destruct j as [|[|j]]; [by injection Hcall' as <-..|lia].
  - reflexivity.
Defined.

(** ** More on [main] *)

Section MainMore.

Variable w : world.
Variable cfg : config.

Lemma articles_events (arts : list article) (email_body : string)
    (t : trace) :
  ∃ final log,
    for_each arts (article_step w) email_body t = (Returned final, t ++ log)
    ∧ http_urls log = []
    ∧ chat_contents log
      = filter (λ c, truthy c = true) (map content_to_summarize arts)
    ∧ smtp_calls_of log = [].
Proof.
  revert email_body t.
  induction arts as [|a arts IH]; intros email_body t.
  - exists email_body, []. by rewrite app_nil_r.
  - cbn [for_each]. unfold bind at 1. rewrite article_step_run.
    destruct (summarize_log_events w (calls is_chat t)
                (content_to_summarize a)) as (Hc & Hh & Hs).
    edestruct IH as (final & log & -> & Hh' & Hc' & Hs').
    eexists final, (_ ++ log). rewrite <- app_assoc. split; [done|].
    rewrite http_urls_app, chat_contents_app, smtp_calls_of_app.
    rewrite Hh, Hc, Hs, Hh', Hc', Hs'. cbn [map]. rewrite filter_cons.
    by destruct (truthy (content_to_summarize a)).
Qed.

Lemma fetched_raised (h : nat) (topic : string) (num : Z) (e : exn) :
  fetched w cfg h topic num = Raised e →
  isinstance e RequestException = false.
Proof.
  unfold fetched, fetch_outcome.
  destruct (requests_get w h _) as [r|e'].
  - destruct ((400 <=? status_code r)%Z && (status_code r <? 600)%Z);
      [done|].
    destruct (response_json r) as [data|e']; [done|].
    destruct (isinstance e' RequestException) eqn:He'; [done|].
    by intros [= <-].
  - destruct (isinstance e' RequestException) eqn:He'; [done|].
    by intros [= <-].
Qed.

(** The events of the topic loop: it makes no SMTP call; it raises the
    exception of the first fetch that raises; when no fetch raises, it
    returns after one request per topic and one chat call per fetched article
    that has a text. *)
Lemma topics_events (topics : list string) (email_body : string)
    (t : trace) :
  ∃ o log,
    for_each topics (topic_step w cfg) email_body t = (o, t ++ log)
    ∧ smtp_calls_of log = []
    ∧ match first_fetch_error w cfg (calls is_http t) topics with
      | Some e => o = Raised e
      | None =>
          (∃ final, o = Returned final)
          ∧ http_urls log = map (λ topic, news_url cfg topic 2) topics
          ∧ chat_contents log
            = filter (λ c, truthy c = true)
                (map content_to_summarize
                   (run_articles w cfg (calls is_http t) topics))
      end.
Proof.
  revert email_body t.
  induction topics as [|topic topics IH]; intros email_body t.
  - exists (Returned email_body), []. rewrite app_nil_r. cbn.
    repeat split. by exists email_body.
  - cbn [for_each]. unfold bind at 1. rewrite topic_step_run.
    cbn [first_fetch_error run_articles].
    destruct (fetch_log_events w cfg (calls is_http t) topic 2)
      as (Hh & Hc & Hs).
    destruct (fetch_log_calls w cfg (calls is_http t) topic 2)
      as (Hn & _).
    destruct (fetched w cfg (calls is_http t) topic 2) as [[|a arts]|e].
    + set (t1 := t ++ fetch_log w cfg (calls is_http t) topic 2
                   ++ [Print ("No articles found for " +:+ topic +:+ ".")]).
      assert (Hh1 : calls is_http t1 = S (calls is_http t))
        by (unfold t1; rewrite app_assoc, calls_print, calls_app, Hn by done;
            lia).
      destruct (IH email_body t1) as (o & log & Hrun & Hs' & Hrest).
      rewrite Hh1 in Hrest.
      exists o, (fetch_log w cfg (calls is_http t) topic 2
                 ++ [Print ("No articles found for " +:+ topic +:+ ".")]
                 ++ log).
      rewrite Hrun. unfold t1. rewrite <- !app_assoc. split; [done|].
      rewrite !smtp_calls_of_app, Hs, Hs'. split; [done|].
      destruct (first_fetch_error w cfg _ topics); [done|].
      destruct Hrest as (Hret & Hh' & Hc'). split; [done|].
      rewrite !http_urls_app, !chat_contents_app, Hh, Hc, Hh', Hc'.
      done.
    + destruct (articles_events (a :: arts)
                  (email_body +:+ topic_heading topic)
                  (t ++ fetch_log w cfg (calls is_http t) topic 2))
        as (mid & alog & Harun & Hah & Hac & Has).
      rewrite Harun.
      set (t1 := (t ++ fetch_log w cfg (calls is_http t) topic 2) ++ alog).
      assert (Hh1 : calls is_http t1 = S (calls is_http t)).
      { destruct (articles_run w (a :: arts)
                    (email_body +:+ topic_heading topic)
                    (t ++ fetch_log w cfg (calls is_http t) topic 2))
          as (alog' & Harun' & Hn' & _).
        rewrite Harun in Harun'. injection Harun' as _ Heq.
        apply app_inv_head in Heq. subst alog'.
        unfold t1. rewrite !calls_app, Hn, Hn'. lia. }
      destruct (IH mid t1) as (o & log & Hrun & Hs' & Hrest).
      rewrite Hh1 in Hrest.
      exists o, (fetch_log w cfg (calls is_http t) topic 2 ++ alog ++ log).
      rewrite Hrun. unfold t1. rewrite <- !app_assoc. split; [done|].
      rewrite !smtp_calls_of_app, Hs, Has, Hs'. split; [done|].
      destruct (first_fetch_error w cfg _ topics); [done|].
      destruct Hrest as (Hret & Hh' & Hc'). split; [done|].
      rewrite !http_urls_app, !chat_contents_app, Hh, Hc, Hah, Hac, Hh', Hc'.
      split; [done|]. by rewrite map_app, filter_app.
    + eexists _, _. split; [done|]. by rewrite Hs.
Qed.

(** X10.  In a run in which no fetch raises, [main] makes exactly one
    request per topic, in the order of the topics, each asking for 2
    articles on that topic; and it asks the chat API for one summary per
    fetched article that has a text, in the order of the topics and of the
    articles, with that text. *)
Theorem main_requests_in_order (topics : list string) (t : trace) :
  first_fetch_error w cfg (calls is_http t) topics = None →
  http_urls (main_for w cfg topics t).2
  = http_urls t ++ map (λ topic, news_url cfg topic 2) topics
  ∧ chat_contents (main_for w cfg topics t).2
    = chat_contents t
      ++ filter (λ c, truthy c = true)
           (map content_to_summarize
              (run_articles w cfg (calls is_http t) topics)).
Proof.
  intros Hnone.
  set (t0 := t ++ [Print "Starting the AI Newsletter Generator..."]).
  assert (Hh0 : calls is_http t0 = calls is_http t)
    by (unfold t0; by rewrite calls_print).
  destruct (topics_events topics email_header t0)
    as (o & log & Hrun & _ & Hrest).
  rewrite Hh0, Hnone in Hrest. destruct Hrest as ((final & ->) & Hh & Hc).
  destruct (mime_text_error w final) as [e|] eqn:Hmime.
  { rewrite (main_for_refused w cfg topics t _ _ e Hrun Hmime). cbn [snd].
    subst t0. rewrite !http_urls_app, !chat_contents_app, Hh, Hc. cbn.
    by rewrite !app_nil_r. }
  rewrite (main_for_sends w cfg topics t _ _ Hrun Hmime). cbn [snd].
  unfold send_log.
  pose proof (smtp_session_events w (calls is_smtp (t0 ++ log))
                (send_script cfg (email_subject w) final)) as Hall.
  assert (Hquiet : ∀ l, Forall (λ ev, is_smtp ev = true) l →
            http_urls l = [] ∧ chat_contents l = []).
  { induction 1 as [|ev l Hev _ [IHh IHc]]; [done|].
    destruct ev; try discriminate. by cbn. }
  destruct (Hquiet _ Hall) as (Hsh & Hsc).
  change (Print ?l :: ?a ++ ?b) with ([Print l] ++ a ++ b).
  rewrite !http_urls_app, !chat_contents_app, Hh, Hc, Hsh, Hsc.
  subst t0. rewrite http_urls_app, chat_contents_app.
  unfold send_report.
  destruct (smtp_session w _ _).2 as [e|];
    [destruct (isinstance e SMTPAuthenticationError)|];
    cbn; by rewrite !app_nil_r.
Qed.

(** X11.  When a fetch raises (an exception that [fetch_articles] does not
    absorb, so not a [RequestException]), [main] raises that exception in
    its turn: the run ends there, without any SMTP call, so no email is
    sent. *)
Theorem main_aborts_on_fetch_error (topics : list string) (t : trace)
    (e : exn) :
  first_fetch_error w cfg (calls is_http t) topics = Some e →
  ∃ log,
    main_for w cfg topics t = (Raised e, t ++ log)
    ∧ smtp_calls_of log = []
    ∧ isinstance e RequestException = false.
Proof.
  intros Herr.
  set (t0 := t ++ [Print "Starting the AI Newsletter Generator..."]).
  assert (Hh0 : calls is_http t0 = calls is_http t)
    by (unfold t0; by rewrite calls_print).
  destruct (topics_events topics email_header t0)
    as (o & log & Hrun & Hs & Hrest).
  rewrite Hh0, Herr in Hrest. subst o.
  exists ([Print "Starting the AI Newsletter Generator..."] ++ log).
  split; [|split].
  - unfold main_for, bind at 1, print at 1. unfold bind at 1.
    fold t0. rewrite Hrun. unfold t0. by rewrite <- app_assoc.
  - by rewrite smtp_calls_of_app, Hs.
  - clear Hrun Hh0. revert Herr. generalize (calls is_http t).
    induction topics as [|topic topics IH]; intros h; [done|].
    cbn. destruct (fetched w cfg h topic 2) as [arts|e'] eqn:Hf;
      [by apply IH|].
    intros [= <-]. by apply fetched_raised in Hf.
Qed.

(** X12.  In a run in which no fetch raises, the composed body can be made
    into a message and the mail relay accepts the connection, the TLS
    upgrade and the login, the message [main] hands over goes from the
    sender to the receiver, has the subject
    "Your Daily AI News Briefing - " followed by the date, and carries the
    composed document as its HTML body; it is handed over once. *)
Theorem main_sends_composed_document (topics : list string) (t : trace) :
  fetches_return w cfg (calls is_http t) topics = true →
  mime_text_error w
    (expected_body
       (sections_at w cfg (calls is_http t) (calls is_chat t) topics))
  = None →
  smtp_answer w (calls is_smtp t) (SMTP_open "smtp.gmail.com" 587) = None →
  smtp_answer w (S (calls is_smtp t)) SMTP_starttls = None →
  smtp_answer w (S (S (calls is_smtp t)))
    (SMTP_login (SENDER_EMAIL cfg) (SENDER_PASSWORD cfg)) = None →
  ∃ closing,
    smtp_calls_of (main_for w cfg topics t).2
    = smtp_calls_of t
      ++ [SMTP_open "smtp.gmail.com" 587;
          SMTP_starttls;
          SMTP_login (SENDER_EMAIL cfg) (SENDER_PASSWORD cfg);
          SMTP_sendmail (SENDER_EMAIL cfg) (RECEIVER_EMAIL cfg)
            {| msg_From := SENDER_EMAIL cfg;
               msg_To := RECEIVER_EMAIL cfg;
               msg_Subject :=
                 "Your Daily AI News Briefing - " +:+ today_date w;
               msg_html :=
                 expected_body
                   (sections_at w cfg (calls is_http t) (calls is_chat t)
                      topics) |}]
      ++ closing
    ∧ (closing = [] ∨ closing = [SMTP_quit]).
Proof.
  intros Hret Hmime Hopen Htls Hlogin.
  set (t0 := t ++ [Print "Starting the AI Newsletter Generator..."]).
  assert (Hh0 : calls is_http t0 = calls is_http t)
    by (unfold t0; by rewrite calls_print).
  assert (Hc0 : calls is_chat t0 = calls is_chat t)
    by (unfold t0; by rewrite calls_print).
  assert (Hs0 : calls is_smtp t0 = calls is_smtp t)
    by (unfold t0; by rewrite calls_print).
  destruct (topics_run w cfg topics email_header t0)
    as (log & Hrun & _ & _ & Hsn); [by rewrite Hh0|].
  rewrite Hh0, Hc0 in Hrun.
  fold (render_document
          (sections_at w cfg (calls is_http t) (calls is_chat t) topics))
    in Hrun.
  rewrite render_document_expected in Hrun.
  destruct (topics_events topics email_header t0)
    as (o & log' & Hrun' & Hsc & _).
  rewrite Hrun in Hrun'. injection Hrun' as _ Heq.
  apply app_inv_head in Heq. subst log'.
  rewrite (main_for_sends w cfg topics t _ _ Hrun Hmime). cbn [snd].
  rewrite calls_app, Hs0, Hsn, Nat.add_0_r.
  unfold send_log, send_script. cbn [smtp_session].
  rewrite Hopen, Htls, Hlogin.
  unfold t0.
  destruct (smtp_answer w (S (S (S (calls is_smtp t)))) _) as [e|].
  - exists []. split; [|by left]. cbn [fst snd].
    rewrite !smtp_calls_of_app, Hsc. unfold send_report, email_subject.
    destruct (isinstance e SMTPAuthenticationError); cbn;
      by rewrite !app_nil_r.
  - exists [SMTP_quit]. split; [|by right].
    destruct (smtp_answer w (S (S (S (S (calls is_smtp t))))) _) as [e|];
      cbn [fst snd]; rewrite !smtp_calls_of_app, Hsc;
      unfold send_report, email_subject;
      [destruct (isinstance e SMTPAuthenticationError)|];
      cbn; by rewrite ?app_nil_r.
Qed.

End MainMore.

Lemma main_requests_in_order_witness :
  http_urls (main_for example_world example_config ["A"; "B"] []).2
  = http_urls [] ++ map (λ topic, news_url example_config topic 2) ["A"; "B"]
  ∧ chat_contents (main_for example_world example_config ["A"; "B"] []).2
    = chat_contents []
      ++ filter (λ c, truthy c = true)
           (map content_to_summarize
              (run_articles example_world example_config (calls is_http [])
                 ["A"; "B"])).
Proof.
  apply (main_requests_in_order example_world example_config ["A"; "B"] []).
  reflexivity.
Defined.

Lemma main_aborts_on_fetch_error_witness :
  ∃ log,
    main_for example_world_bad_json example_config ["A"; "B"] []
    = (Raised (Exn ValueError "Expecting value"), [] ++ log)
    ∧ smtp_calls_of log = []
    ∧ isinstance (Exn ValueError "Expecting value") RequestException = false.
Proof.
  apply (main_aborts_on_fetch_error example_world_bad_json example_config
           ["A"; "B"] [] (Exn ValueError "Expecting value")).
  reflexivity.
Defined.

Lemma main_sends_composed_document_witness :
  ∃ closing,
    smtp_calls_of
      (main_for (mock_world example_config) example_config ["A"; "B"] []).2
    = smtp_calls_of []
      ++ [SMTP_open "smtp.gmail.com" 587;
          SMTP_starttls;
          SMTP_login (SENDER_EMAIL example_config)
            (SENDER_PASSWORD example_config);
          SMTP_sendmail (SENDER_EMAIL example_config)
            (RECEIVER_EMAIL example_config)
            {| msg_From := SENDER_EMAIL example_config;
               msg_To := RECEIVER_EMAIL example_config;
               msg_Subject :=
                 "Your Daily AI News Briefing - "
                 +:+ today_date (mock_world example_config);
               msg_html :=
                 expected_body
                   (sections_at (mock_world example_config) example_config
                      (calls is_http []) (calls is_chat []) ["A"; "B"]) |}]
      ++ closing
    ∧ (closing = [] ∨ closing = [SMTP_quit]).
Proof.
  apply (main_sends_composed_document (mock_world example_config)
           example_config ["A"; "B"] []); reflexivity.
Defined.

Example main_aborted_run :
  main_for example_world_bad_json example_config ["A"; "B"] []
  = (Raised (Exn ValueError "Expecting value"),
     [Print "Starting the AI Newsletter Generator...";
      Print "Fetching 2 articles for 'A'...";
      HttpGet "https://newsapi.org/v2/everything?q=A&sortBy=publishedAt&pageSize=2&apiKey=key"]).
Proof. reflexivity. Qed.

(** ** A completion made of white space *)

Lemma lstrip_all_space (s : string) : all_space s = true → lstrip s = "".
Proof.
  induction s as [|c s IH]; [done|]. cbn.
  intros [Hc Hs]%andb_true_iff. rewrite Hc. by apply IH.
Qed.

(** X13.  When the first choice of the completion carries a text made of
    white space only (or an empty text), [summarize_article] returns the
    empty string as the summary, not a sentinel. *)
Theorem summarize_article_blank_completion (w : world) (content : pyval)
    (t : trace) (c : choice) (rest : list choice) (s : string) :
  truthy content = true →
  chat_completions_create w (calls is_chat t) content
  = Returned (Completion (c :: rest)) →
  message_content c = Some s →
  all_space s = true →
  (summarize_article w content t).1 = Returned "".
Proof.
  intros Hfull Hanswer Hs Hblank. rewrite summarize_article_run. cbn [fst].
  unfold summary_at. rewrite Hfull, Hanswer. cbn. rewrite Hs.
  unfold strip. by rewrite (lstrip_all_space s Hblank).
Qed.

Lemma summarize_article_blank_completion_witness :
  (summarize_article
     {| requests_get := requests_get example_world;
        chat_completions_create := λ n content,
          Returned (Completion [Choice (Some (" " +:+ newline))]);
        smtp_answer := smtp_answer example_world;
        mime_text_error := mime_text_error example_world;
        today_date := today_date example_world |}
     (PStr "c1") []).1 = Returned "".
Proof.
  apply (summarize_article_blank_completion _ (PStr "c1") []
           (Choice (Some (" " +:+ newline))) [] (" " +:+ newline));
    reflexivity.
Defined.
